(** * PortoDB SHA-256 tracking and dedupe of backup_capcut.py

    A shallow embedding of the "PORTODB SHA + DEDUPE HELPERS" of
    [src/backup_capcut.py]: [compute_sha256], [write_sha256_file],
    [load_portodb_log], [save_portodb_log], [generate_portodb_delete_script]
    and [process_portodb_hashes_and_dedupe].

    Modelling choices:
    - Python [str] is [string]; a [Dict[str, str]] read by key is a
      [gmap string string]; a dict whose iteration order matters
      ([sha_map], built in [os.walk] order) is an association list in
      insertion order.
    - The PortoDB tree seen by [os.walk] is an [entry] tree whose children
      lists are in directory-listing order; an unreadable file (one that
      raises while [compute_sha256] streams it) has content [None].
    - [hashlib.sha256(..).hexdigest()], [json.dump]/[json.load] and [str()]
      are library functions: they are section variables, and the only
      facts assumed about them are stated as section hypotheses where a
      proof needs them.
    - Files the code writes as plain text (SHA256.txt, the delete script)
      live in a store [gmap string string]; the JSON log and its [.tmp]
      live in a store of JSON documents of type [text].
    - An exception that escapes a function is the [Err] case of [result];
      lines printed to stdout are returned as a [list string]. *)

From Stdlib Require Import Ascii String.
From stdpp Require Import base gmap strings list sorting pretty.

Local Open Scope string_scope.
#[local] Set Warnings "-register-all".

(** ** Results: raised exceptions *)

Inductive py_error : Type :=
| IOError (path : string).

Inductive result (A : Type) : Type :=
| Ok (a : A)
| Err (e : py_error).
Arguments Ok {A} a.
Arguments Err {A} e.

Definition rbind {A B} (m : result A) (k : A -> result B) : result B :=
  match m with
  | Ok a => k a
  | Err e => Err e
  end.

Notation "x <- m ;; k" := (rbind m (fun x => k))
  (at level 100, m at next level, right associativity).

(** ** Paths *)

Definition sha_file_name : string := "SHA256.txt".
Definition log_file_name : string := "portodb_sha_log.json".

Definition starts_with_slash (s : string) : bool :=
  match s with
  | String c _ => Ascii.eqb c "/"%char
  | EmptyString => false
  end.

Fixpoint ends_with_slash (s : string) : bool :=
  match s with
  | EmptyString => false
  | String c EmptyString => Ascii.eqb c "/"%char
  | String _ r => ends_with_slash r
  end.

(** [os.path.join(a, b)] (POSIX, two arguments). *)
Definition path_join (a b : string) : string :=
  if starts_with_slash b then b
  else if String.eqb a "" then b
  else if ends_with_slash a then a +:+ b
  else a +:+ "/" +:+ b.

(** [os.path.relpath(os.path.join(dirpath, name), portodb_root)] for a
    directory [dirpath] reached by [os.walk] under [portodb_root], given the
    relative path [prefix] of [dirpath] ("" for the root itself). *)
Definition rel_join (prefix name : string) : string :=
  if String.eqb prefix "" then name else prefix +:+ "/" +:+ name.

(** ["\n".join(lines)] *)
Fixpoint join_lines (lines : list string) : string :=
  match lines with
  | [] => ""
  | [l] => l
  | l :: rest => l +:+ "
" +:+ join_lines rest
  end.

Definition newline : string := "
".

(** ** The directory tree walked by [os.walk] *)

Inductive entry : Type :=
| EFile (name : string) (content : option (list Byte.byte))
| EDir (name : string) (children : list entry).

(** The files of one [os.walk] step, in listing order, for a directory whose
    relative path is [prefix]. *)
Fixpoint dir_files (prefix : string) (cs : list entry)
  : list (string * option (list Byte.byte)) :=
  match cs with
  | [] => []
  | EFile n c :: rest => (rel_join prefix n, c) :: dir_files prefix rest
  | EDir _ _ :: rest => dir_files prefix rest
  end.

(** [os.walk] top-down: the files of a directory first, then each
    subdirectory in listing order, recursively. The result lists
    (relative path, content) in the order the loop of [write_sha256_file]
    visits the files. *)
Fixpoint walk_dir (prefix : string) (e : entry) {struct e}
  : list (string * option (list Byte.byte)) :=
  match e with
  | EFile _ _ => []
  | EDir _ cs =>
      (dir_files prefix cs ++
       (fix subdirs (l : list entry) : list (string * option (list Byte.byte)) :=
          match l with
          | [] => []
          | (EDir d _ as sd) :: rest => walk_dir (rel_join prefix d) sd ++ subdirs rest
          | EFile _ _ :: rest => subdirs rest
          end) cs)%list
  end.

(** [os.walk(portodb_root)] over the root's children [cs]. *)
Definition walk (cs : list entry) : list (string * option (list Byte.byte)) :=
  walk_dir "" (EDir "" cs).

(** ** JSON values as returned by [json.load]

    A JSON object keeps its members in document order, duplicates
    included; [py_dict] below is the Python [dict] that [json.load] builds
    from them (the last occurrence of a key wins). *)

Inductive jvalue : Type :=
| JNull
| JBool (b : bool)
| JInt (z : Z)
| JFloat (repr : string)
| JStr (s : string)
| JList (items : list jvalue)
| JObject (members : list (string * jvalue)).

Definition py_dict (members : list (string * jvalue)) : gmap string jvalue :=
  foldl (fun m kv => <[kv.1 := kv.2]> m) ∅ members.

(** Order of members under [sort_keys=True]. *)
Definition key_le (a b : string * jvalue) : Prop := String.leb a.1 b.1 = true.

#[export] Instance key_le_dec : RelDecision key_le.
Proof. intros a b. unfold key_le. apply _. Defined.

(** The double-quote character. *)
Definition dq : string := String "034"%char EmptyString.

(** ** String helpers of the path and config code *)

Definition slash : ascii := "/"%char.

(** [c in s] *)
Fixpoint has_char (c : ascii) (s : string) : bool :=
  match s with
  | EmptyString => false
  | String a r => Ascii.eqb a c || has_char c r
  end.

(** [s.split(c)] for a one-character separator. *)
Fixpoint split_on (c : ascii) (s : string) : list string :=
  match s with
  | EmptyString => [""]
  | String a r =>
      if Ascii.eqb a c then "" :: split_on c r
      else match split_on c r with
           | [] => [String a ""]
           | w :: ws => String a w :: ws
           end
  end.

(** Upper-casing of the ASCII letters a-z. On a string of ASCII
    characters, [ascii_str_upper] is Python's [str.upper()]; it serves as a
    concrete instance of the [py_upper] argument below (Python's
    [str.upper()] on arbitrary text also maps non-ASCII letters, and is
    left abstract). *)
Definition ascii_upper (a : ascii) : ascii :=
  let n := nat_of_ascii a in
  if (97 <=? n)%nat && (n <=? 122)%nat then ascii_of_nat (n - 32)%nat else a.

Fixpoint ascii_str_upper (s : string) : string :=
  match s with
  | EmptyString => EmptyString
  | String a r => String (ascii_upper a) (ascii_str_upper r)
  end.

(** The components loop of [posixpath.normpath]; [stk] is [new_comps]
    reversed (its head is [new_comps[-1]]). *)
Fixpoint norm_loop (initial_slashes : bool) (comps : list string)
    (stk : list string) : list string :=
  match comps with
  | [] => stk
  | comp :: rest =>
      if String.eqb comp "" || String.eqb comp "." then
        norm_loop initial_slashes rest stk
      else if negb (String.eqb comp "..")
              || (negb initial_slashes && bool_decide (stk = []))
              || match stk with top :: _ => String.eqb top ".." | [] => false end
      then norm_loop initial_slashes rest (comp :: stk)
      else match stk with
           | [] => norm_loop initial_slashes rest stk
           | _ :: stk' => norm_loop initial_slashes rest stk'
           end
  end.

(** [os.path.normpath(path)] (POSIX). *)
Definition normpath (path : string) : string :=
  if String.eqb path "" then "." else
  let initial_slashes : nat :=
    if String.prefix "/" path then
      if String.prefix "//" path && negb (String.prefix "///" path) then 2%nat else 1%nat
    else 0%nat in
  let new_comps := rev (norm_loop (bool_decide (initial_slashes <> 0%nat))
                          (split_on slash path) []) in
  let p := String.concat "/" new_comps in
  let p := (if Nat.eqb initial_slashes 2%nat then "//"
            else if Nat.eqb initial_slashes 1%nat then "/" else "") +:+ p in
  if String.eqb p "" then "." else p.

(** [wsl_to_win_path(wsl_path)]: the Windows path, or the message of the
    [ValueError] it raises; [py_upper] is Python's [str.upper()]. *)
Definition wsl_to_win_path (py_upper : string -> string) (wsl_path : string)
  : string + string :=
  let wsl_path := normpath wsl_path in
  if negb (String.prefix "/mnt/" wsl_path) then
    inr ("Cannot convert non-/mnt path to Windows path: " +:+ wsl_path)
  else
    let parts := split_on slash wsl_path in
    if (length parts <? 4)%nat then inr ("Unexpected WSL path format: " +:+ wsl_path)
    else match parts with
         | _ :: _ :: drive :: rest =>
             inl (py_upper drive +:+ ":\" +:+ String.concat "\" rest)
         | _ => inr ("Unexpected WSL path format: " +:+ wsl_path)
         end.

(** A path component [normpath] keeps as it is. *)
Definition plain_component (s : string) : bool :=
  negb (has_char slash s) && negb (String.eqb s "") &&
  negb (String.eqb s ".") && negb (String.eqb s "..").

(** ** Whitespace, [str.strip] and [str.rstrip("/")] *)

(** [c.isspace()] for the characters U+0000..U+00FF that the bytes of a
    [string] stand for. *)
Definition py_isspace (c : ascii) : bool :=
  let n := nat_of_ascii c in
  ((9 <=? n) && (n <=? 13))%nat || ((28 <=? n) && (n <=? 32))%nat
  || (n =? 133)%nat || (n =? 160)%nat.

(** [s.lstrip(chars)], [chars] given by the test [p]. *)
Fixpoint lstrip_by (p : ascii -> bool) (s : string) : string :=
  match s with
  | EmptyString => EmptyString
  | String c r => if p c then lstrip_by p r else s
  end.

(** [s.rstrip(chars)], [chars] given by the test [p]. *)
Fixpoint rstrip_by (p : ascii -> bool) (s : string) : string :=
  match s with
  | EmptyString => EmptyString
  | String c r =>
      let r' := rstrip_by p r in
      if String.eqb r' "" && p c then EmptyString else String c r'
  end.

(** [s.strip()] *)
Definition py_strip (s : string) : string :=
  rstrip_by py_isspace (lstrip_by py_isspace s).

(** [s.rstrip("/")] *)
Definition rstrip_slash (s : string) : string :=
  rstrip_by (fun c => Ascii.eqb c slash) s.

(** [[m.strip() for m in raw.split(",") if m.strip()]] *)
Definition strip_items (raw : string) : list string :=
  List.filter (fun m => negb (String.eqb m "")) (map py_strip (split_on ","%char raw)).

(** ** load_config *)

(** [if not value:] on the result of [os.getenv(key)]: [None] when the
    variable is unset or empty. *)
Definition env_nonempty (v : option string) : option string :=
  match v with
  | Some s => if String.eqb s "" then None else Some s
  | None => None
  end.

Definition default_capcut_dir : string := "/sdcard/Android/data/com.lemon.lvoverseas".
Definition adb_missing_msg : string := "[ERROR] ADB_PATH_WSL not set in .env".
Definition root_missing_msg : string := "[ERROR] BACKUP_ROOT_WSL not set in .env".

(** The dict returned by [load_config] of backup_capcut.py. *)
Record config : Type := mkConfig {
  cfg_adb_path : string;                     (** "ADB_PATH" *)
  cfg_backup_root : string;                  (** "BACKUP_ROOT" *)
  cfg_phone_capcut_dir : string;             (** "PHONE_CAPCUT_DIR" *)
  cfg_phone_media_dirs : list string;        (** "PHONE_MEDIA_DIRS" *)
  cfg_portodb_db_dir : option string;        (** "PORTODB_DB_DIR" *)
  cfg_download_ignore_patterns : list string (** "DOWNLOAD_IGNORE_PATTERNS" *)
}.

(** [load_config()] of backup_capcut.py over the environment [env] as
    [load_dotenv()] leaves it; [inr] is the message of the [SystemExit] it
    raises. *)
Definition load_config (env : gmap string string) : config + string :=
  let adb_path := env !! "ADB_PATH_WSL" in
  let backup_root := env !! "BACKUP_ROOT_WSL" in
  let phone_capcut_dir := default default_capcut_dir (env !! "PHONE_CAPCUT_DIR") in
  let media_dirs := strip_items (default "" (env !! "PHONE_MEDIA_DIRS")) in
  let portodb_dir_raw := py_strip (default "" (env !! "PORTODB_DB_DIR")) in
  let portodb_dir := if String.eqb portodb_dir_raw "" then None else Some portodb_dir_raw in
  let download_ignore_patterns :=
    strip_items (default "" (env !! "DOWNLOAD_IGNORE_PATTERNS")) in
  match env_nonempty adb_path with
  | None => inr adb_missing_msg
  | Some adb =>
      match env_nonempty backup_root with
      | None => inr root_missing_msg
      | Some root =>
          inl (mkConfig adb root (rstrip_slash phone_capcut_dir) media_dirs
                 portodb_dir download_ignore_patterns)
      end
  end.

(** ** Path helpers of the media and restore code *)

(** [os.path.basename(p)]: [p[p.rfind("/") + 1:]]. *)
Fixpoint basename (p : string) : string :=
  match p with
  | EmptyString => EmptyString
  | String c r =>
      if has_char slash r then basename r
      else if Ascii.eqb c slash then r else p
  end.

(** [p[:p.rfind("/") + 1]] *)
Fixpoint dir_head (p : string) : string :=
  match p with
  | EmptyString => EmptyString
  | String c r =>
      if has_char slash r then String c (dir_head r)
      else if Ascii.eqb c slash then String c EmptyString else EmptyString
  end.

(** [head == "/" * len(head)] *)
Fixpoint all_slashes (s : string) : bool :=
  match s with
  | EmptyString => true
  | String c r => Ascii.eqb c slash && all_slashes r
  end.

(** [os.path.dirname(p)] (POSIX). *)
Definition dirname (p : string) : string :=
  let head := dir_head p in
  if negb (String.eqb head "") && negb (all_slashes head) then rstrip_slash head
  else head.

(** [s[:s.rfind("/")]], for an [s] that contains '/'. *)
Fixpoint before_last_slash (s : string) : string :=
  match s with
  | EmptyString => EmptyString
  | String c r => if has_char slash r then String c (before_last_slash r) else EmptyString
  end.

(** [s.rsplit("/", 1)[0]] *)
Definition rsplit_head (s : string) : string :=
  if has_char slash s then before_last_slash s else s.

(** ** should_ignore_download_file and the Download branch of backup_media_dirs *)

(** [should_ignore_download_file(path, ignore_patterns)];
    [fnmatch name pat] is [fnmatch.fnmatch(name, pat)]. *)
Definition should_ignore_download_file (fnmatch : string -> string -> bool)
    (path : string) (ignore_patterns : list string) : bool :=
  let filename := basename path in
  existsb (fun pat => fnmatch filename pat) ignore_patterns.

(** [files_to_copy] and [ignored_files] of the Download branch. *)
Definition download_selection (fnmatch : string -> string -> bool)
    (download_ignore_patterns all_files : list string) : list string * list string :=
  let files_to_copy :=
    List.filter (fun f => negb (should_ignore_download_file fnmatch f download_ignore_patterns))
      all_files in
  let ignored_files :=
    List.filter (fun f => negb (bool_decide (f ∈ files_to_copy))) all_files in
  (files_to_copy, ignored_files).

(** For a file [f] of [files_to_copy]: [dest_dir_wsl] and [filename]. *)
Definition download_target (media_parent_wsl phone_dir f : string) : string * string :=
  let rel :=
    if String.prefix (phone_dir +:+ "/") f
    then String.substring (String.length phone_dir + 1) (String.length f) f
    else basename f in
  let rel_dir := dirname rel in
  let filename := basename rel in
  (path_join (path_join media_parent_wsl "Download") rel_dir, filename).

(** * restore_capcut.py *)

Module Restore.

(** The dict returned by [load_config] of restore_capcut.py. *)
Record config : Type := mkConfig {
  cfg_adb_path : string;
  cfg_backup_root : string;
  cfg_phone_capcut_dir : string;
  cfg_phone_media_dirs : list string
}.

(** [load_config()] of restore_capcut.py. *)
Definition load_config (env : gmap string string) : config + string :=
  let adb_path := env !! "ADB_PATH_WSL" in
  let backup_root := env !! "BACKUP_ROOT_WSL" in
  let phone_capcut_dir := default default_capcut_dir (env !! "PHONE_CAPCUT_DIR") in
  let media_dirs_raw := default "" (env !! "PHONE_MEDIA_DIRS") in
  match env_nonempty adb_path with
  | None => inr adb_missing_msg
  | Some adb =>
      match env_nonempty backup_root with
      | None => inr root_missing_msg
      | Some root =>
          let media_dirs := strip_items media_dirs_raw in
          inl (mkConfig adb root (rstrip_slash phone_capcut_dir) media_dirs)
      end
  end.

(** [wsl_to_win_path] of restore_capcut.py is the same code as the one of
    backup_capcut.py. *)
Definition wsl_to_win_path : (string -> string) -> string -> string + string :=
  wsl_to_win_path.

(** The directories [os.walk] visits under a root with children [cs]:
    (path, names of the subdirectories), top-down. *)
Fixpoint walk_dirs (top : string) (e : entry) {struct e} : list (string * list string) :=
  match e with
  | EFile _ _ => []
  | EDir _ cs =>
      (top, (fix names (l : list entry) : list string :=
               match l with
               | [] => []
               | EDir d _ :: rest => d :: names rest
               | EFile _ _ :: rest => names rest
               end) cs) ::
      (fix subdirs (l : list entry) : list (string * list string) :=
         match l with
         | [] => []
         | (EDir d _ as sd) :: rest => (walk_dirs (path_join top d) sd ++ subdirs rest)%list
         | EFile _ _ :: rest => subdirs rest
         end) cs
  end.

Definition no_backup_root_msg (backup_root : string) : string :=
  "[WARN] BACKUP_ROOT_WSL does not exist yet: " +:+ backup_root.

(** [find_backup_runs(backup_root)]: the run directories and the printed
    lines; [is_dir] is [os.path.isdir(backup_root)] and [tree] the
    children of [backup_root]. *)
Definition find_backup_runs (is_dir : bool) (backup_root : string) (tree : list entry)
  : list string * list string :=
  if negb is_dir then ([], [no_backup_root_msg backup_root])
  else
    let run_dirs :=
      map fst (List.filter (fun rd => bool_decide ("capcut_app" ∈ rd.2))
                 (walk_dirs backup_root (EDir "" tree))) in
    (merge_sort String.le (remove_dups run_dirs), []).

Inductive choice_result : Type :=
| Chosen (run_dir : string)
| Exit (msg : string)    (** [SystemExit] *)
| NoInput.               (** [input()] raises [EOFError] *)

(** The [while True] loop of [choose_run_dir] over the lines the user
    types; [py_int s] is [int(s)], [None] when it raises [ValueError]. *)
Fixpoint choose_loop (py_int : string -> option Z) (run_dirs : list string)
    (inputs : list string) : choice_result * list string :=
  match inputs with
  | [] => (NoInput, [])
  | choice :: rest =>
      let retry :=
        let '(r, out) := choose_loop py_int run_dirs rest in
        (r, "Invalid choice. Try again." :: out) in
      match py_int choice with
      | Some idx =>
          if (0 <=? idx)%Z && (idx <? Z.of_nat (length run_dirs))%Z then
            match run_dirs !! Z.to_nat idx with
            | Some d => (Chosen d, [])
            | None => retry
            end
          else retry
      | None => retry
      end
  end.

Definition no_runs_msg : string := "[ERROR] No backup runs found with a capcut_app folder.".

(** [choose_run_dir(run_dirs)] *)
Definition choose_run_dir (py_int : string -> option Z) (run_dirs : list string)
    (inputs : list string) : choice_result * list string :=
  match run_dirs with
  | [] => (Exit no_runs_msg, [])
  | _ =>
      let listing :=
        imap (fun i path => "  [" +:+ pretty (N.of_nat i) +:+ "] " +:+ path) run_dirs in
      let '(r, out) := choose_loop py_int run_dirs inputs in
      (r, "Available backup runs:" :: listing ++ out)%list
  end.

(** [restore_capcut_data(adb_path, phone_capcut_dir, run_dir)] up to the
    [adb push]: the command run, if any, and the lines printed before it;
    [py_upper] is [str.upper()] and [is_dir] is [os.path.isdir]. *)
Definition restore_capcut_data (py_upper : string -> string) (is_dir : string -> bool)
    (adb_path phone_capcut_dir run_dir : string) : option (list string) * list string :=
  let capcut_parent := path_join run_dir "capcut_app" in
  let capcut_basename := basename phone_capcut_dir in
  let local_capcut_dir := path_join capcut_parent capcut_basename in
  if negb (is_dir local_capcut_dir) then
    (None, ["[WARN] CapCut local directory not found: " +:+ local_capcut_dir])
  else
    let dest_parent := rsplit_head phone_capcut_dir in
    let step := "[STEP] Restoring CapCut data to " +:+ dest_parent +:+ " ..." in
    match wsl_to_win_path py_upper local_capcut_dir with
    | inr e => (None, [step; "[PATH CONVERT FAIL] " +:+ e])
    | inl local_capcut_dir_win =>
        (Some [adb_path; "push"; local_capcut_dir_win; dest_parent], [step])
    end.

(** [restore_media_dirs(adb_path, media_dirs, run_dir)]: the [adb push]
    commands run, in order, and the printed lines. *)
Definition restore_media_dirs (py_upper : string -> string) (is_dir : string -> bool)
    (adb_path : string) (media_dirs : list string) (run_dir : string)
  : list (list string) * list string :=
  let media_parent := path_join run_dir "media" in
  if negb (is_dir media_parent) then
    ([], ["[INFO] No 'media' folder in this run; skipping media restore."])
  else
    foldr (fun phone_dir acc =>
      let phone_dir := rstrip_slash phone_dir in
      let name := basename phone_dir in
      let local_dir := path_join media_parent name in
      if negb (is_dir local_dir) then
        (acc.1, ("[SKIP] Local media dir not found for " +:+ phone_dir +:+ ": " +:+ local_dir)
                  :: acc.2)
      else
        match wsl_to_win_path py_upper local_dir with
        | inr e => (acc.1, ("[PATH CONVERT FAIL] " +:+ e) :: acc.2)
        | inl local_dir_win =>
            let dest_parent := rsplit_head phone_dir in
            ([adb_path; "push"; local_dir_win; dest_parent] :: acc.1,
             ("[STEP] Restoring media " +:+ name +:+ " to " +:+ dest_parent +:+ " ...") :: acc.2)
        end) ([], []) media_dirs.

End Restore.


Section Program.

(** [hashlib.sha256(data).hexdigest()] *)
Variable sha256_hex : list Byte.byte -> string.

(** ** compute_sha256 *)

(** Streams the file; an unreadable file raises (the [IOError] of the
    spec), which is not caught here. *)
Definition compute_sha256 (path : string) (content : option (list Byte.byte))
  : result string :=
  match content with
  | Some bytes => Ok (sha256_hex bytes)
  | None => Err (IOError path)
  end.

(** ** write_sha256_file *)

(** The [for root, dirs, files in os.walk(...)] loop: skips our own
    SHA256.txt, hashes every other file and records [sha_map[rel_path]]
    in visiting order. *)
Fixpoint hash_loop (portodb_root : string)
    (items : list (string * option (list Byte.byte)))
  : result (list (string * string)) :=
  match items with
  | [] => Ok []
  | (rel_path, c) :: rest =>
      if String.eqb rel_path sha_file_name then hash_loop portodb_root rest
      else
        sha <- compute_sha256 (path_join portodb_root rel_path) c ;;
        others <- hash_loop portodb_root rest ;;
        Ok ((rel_path, sha) :: others)
  end.

(** [f"{sha256}  {rel_path}"] *)
Definition manifest_line (kv : string * string) : string :=
  kv.2 +:+ "  " +:+ kv.1.

(** ["\n".join(lines) + ("\n" if lines else "")] *)
Definition manifest_text (sha_map : list (string * string)) : string :=
  let lines := map manifest_line sha_map in
  join_lines lines +:+ (match lines with [] => "" | _ => newline end).

(** [with open(sha_file_path, "w") as f: f.write(text)]: the states of the
    text store after each call, in order; opening with "w" truncates. *)
Definition write_text_trace (store : gmap string string) (p s : string)
  : list (gmap string string) :=
  [<[p := ""]> store; <[p := s]> store].

Definition last_store (store : gmap string string)
    (trace : list (gmap string string)) : gmap string string :=
  default store (last trace).

(** [write_sha256_file(portodb_root)]: returns [sha_map] (in insertion
    order), the trace of the text store and the printed lines. *)
Definition write_sha256_file (portodb_root : string) (tree : list entry)
    (store : gmap string string)
  : result (list (string * string) * list (gmap string string) * list string) :=
  let sha_file_path := path_join portodb_root sha_file_name in
  sha_map <- hash_loop portodb_root (walk tree) ;;
  Ok (sha_map,
      write_text_trace store sha_file_path (manifest_text sha_map),
      ["[OK] SHA256.txt written with " +:+ pretty (N.of_nat (length sha_map))
         +:+ " entries at " +:+ sha_file_path]).

(** ** The classification loop of process_portodb_hashes_and_dedupe *)

(** [prev_sha is not None and prev_sha == sha] *)
Definition unchanged_test (old_log : gmap string string) (rel_path sha : string)
  : bool :=
  match old_log !! rel_path with
  | Some prev_sha => String.eqb prev_sha sha
  | None => false
  end.

(** [for rel_path, sha in current_map.items(): ...] with the accumulators
    [unchanged_abs_paths] and [new_log]. *)
Fixpoint dedupe_loop (portodb_root : string) (old_log : gmap string string)
    (items : list (string * string)) (unchanged_abs_paths : list string)
    (new_log : gmap string string) : list string * gmap string string :=
  match items with
  | [] => (unchanged_abs_paths, new_log)
  | (rel_path, sha) :: rest =>
      let unchanged_abs_paths' :=
        if unchanged_test old_log rel_path sha
        then (unchanged_abs_paths ++ [path_join portodb_root rel_path])%list
        else unchanged_abs_paths in
      dedupe_loop portodb_root old_log rest unchanged_abs_paths'
        (<[rel_path := sha]> new_log)
  end.

(** Step 3: [unchanged_abs_paths = []], [new_log = dict(old_log)]. *)
Definition classify (portodb_root : string) (current_map : list (string * string))
    (old_log : gmap string string) : list string * gmap string string :=
  dedupe_loop portodb_root old_log current_map [] old_log.

(** ** The JSON log: load_portodb_log / save_portodb_log *)

(** Contents of a file read and written through the [json] module. *)
Variable text : Type.
(** [json.dump(obj, f, indent=2, sort_keys=True)]: the document written. *)
Variable json_dump : jvalue -> text.
(** [json.load(f)]: the decoded value, or the message of the exception it
    raises ([JSONDecodeError], [UnicodeDecodeError], ...). *)
Variable json_load : text -> jvalue + string.
(** Python's [str()] on a decoded JSON value. *)
Variable py_str : jvalue -> string.

(** [load_portodb_log(log_path)] over the store of JSON files. *)
Definition load_portodb_log (store : gmap string text) (log_path : string)
  : gmap string string * list string :=
  match store !! log_path with
  | None => (∅, [])
  | Some doc =>
      match json_load doc with
      | inl (JObject members) => (py_str <$> py_dict members, [])
      | inl _ => (∅, [])
      | inr e => (∅, ["[WARN] Could not read existing PortoDB SHA log: " +:+ e])
      end
  end.

(** [sort_keys=True]: members in key order. *)
Definition sort_members (members : list (string * jvalue))
  : list (string * jvalue) :=
  merge_sort key_le members.

(** The JSON object [json.dump] serialises for a [Dict[str, str]]. *)
Definition dict_to_json (data : gmap string string) : jvalue :=
  JObject (sort_members ((fun kv => (kv.1, JStr kv.2)) <$> map_to_list data)).

(** [os.replace(src, dst)] *)
Definition os_replace {V} (store : gmap string V) (src dst : string)
  : gmap string V :=
  match store !! src with
  | Some c => <[dst := c]> (delete src store)
  | None => store
  end.

(** [save_portodb_log(log_path, data)] *)
Definition save_portodb_log (store : gmap string text) (log_path : string)
    (data : gmap string string) : gmap string text * list string :=
  let tmp_path := log_path +:+ ".tmp" in
  let store1 := <[tmp_path := json_dump (dict_to_json data)]> store in
  (os_replace store1 tmp_path log_path,
   ["[OK] PortoDB SHA log updated at " +:+ log_path]).

(** ** generate_portodb_delete_script *)

Definition delete_script_text (files_to_delete : list string) : string :=
  join_lines (
    ["import os"; ""; "FILES_TO_DELETE = ["] ++
    map (fun p => "    r" +:+ dq +:+ p +:+ dq +:+ ",") files_to_delete ++
    ["]"; "";
     "def main():";
     "    for path in FILES_TO_DELETE:";
     "        if os.path.exists(path):";
     "            print(f'Removing {path} ...')";
     "            try:";
     "                os.remove(path)";
     "            except Exception as e:";
     "                print(f'  [WARN] Failed to remove {path}: {e}')";
     "        else:";
     "            print(f'Skipping {path}; does not exist.')";
     "";
     "if __name__ == '__main__':";
     "    confirm = input('Type DELETE PORTODB to remove unchanged destination PortoDB files: ')";
     "    if confirm.strip() == 'DELETE PORTODB':";
     "        main()";
     "    else:";
     "        print('Aborted; no deletions performed.')";
     ""])%list.

Definition no_unchanged_msg : string :=
  "[INFO] No unchanged PortoDB files this run; no delete script generated.".

(** [generate_portodb_delete_script(files_to_delete)] with the current
    directory [cwd] and the [%Y%m%d_%H%M] stamp [timestamp]; acts on the
    store of text files. *)
Definition generate_portodb_delete_script (cwd timestamp : string)
    (files_to_delete : list string) (store : gmap string string)
  : gmap string string * list string :=
  match files_to_delete with
  | [] => (store, [no_unchanged_msg])
  | _ =>
      let filename := "delete_unchanged_portodb_" +:+ timestamp +:+ ".py" in
      let script_path := path_join cwd filename in
      (last_store store
         (write_text_trace store script_path (delete_script_text files_to_delete)),
       ["[GENERATED] PortoDB dedupe delete script: " +:+ script_path;
        "           (Run this to remove unchanged destination PortoDB files for this run.)"])
  end.

(** ** process_portodb_hashes_and_dedupe *)

Record world : Type := mkWorld {
  texts : gmap string string;   (** plain text files *)
  jsons : gmap string text      (** files read and written as JSON *)
}.

(** [process_portodb_hashes_and_dedupe(portodb_root, backup_root)];
    [is_dir] is [os.path.isdir(portodb_root)] and [tree] what [os.walk]
    finds under it. *)
Definition process_portodb_hashes_and_dedupe (is_dir : bool)
    (portodb_root backup_root cwd timestamp : string) (tree : list entry)
    (w : world) : result (world * list string) :=
  if negb is_dir then
    Ok (w, ["[INFO] PortoDB backup directory not found at " +:+ portodb_root
              +:+ "; skipping SHA/dedupe."])
  else
    r <- write_sha256_file portodb_root tree (texts w) ;;
    let '(current_map, trace, out1) := r in
    let log_path := path_join backup_root log_file_name in
    let '(old_log, out2) := load_portodb_log (jsons w) log_path in
    let '(unchanged_abs_paths, new_log) := classify portodb_root current_map old_log in
    let '(jsons', out3) := save_portodb_log (jsons w) log_path new_log in
    let out4 := match unchanged_abs_paths with
                | [] => []
                | _ => ["[INFO] " +:+ pretty (N.of_nat (length unchanged_abs_paths))
                          +:+ " PortoDB files unchanged since last export."]
                end in
    let '(texts', out5) :=
      generate_portodb_delete_script cwd timestamp unchanged_abs_paths
        (last_store (texts w) trace) in
    Ok (mkWorld texts' jsons', out1 ++ out2 ++ out3 ++ out4 ++ out5)%list.

(** * Properties *)

(** ** String lemmas *)

Lemma str_app_cons a s t : String a s +:+ t = String a (s +:+ t).
Proof. reflexivity. Qed.

Lemma str_app_assoc a b c : (a +:+ b) +:+ c = a +:+ (b +:+ c).
Proof. induction a as [|x a IH]; [done|]. rewrite !str_app_cons. by rewrite IH. Qed.

Lemma str_app_nil t : "" +:+ t = t.
Proof. reflexivity. Qed.

Lemma prefix_nil s : String.prefix "" s = true.
Proof. by destruct s. Qed.

Lemma prefix_cons_same a s t : String.prefix (String a s) (String a t) = String.prefix s t.
Proof. simpl. by destruct (ascii_dec a a). Qed.

Lemma prefix_app s t : String.prefix s (s +:+ t) = true.
Proof.
  induction s as [|a s IH]; [apply prefix_nil|].
  rewrite str_app_cons, prefix_cons_same. apply IH.
Qed.

(** ** The dedupe loop *)

Definition log_insert (m : gmap string string) (kv : string * string)
  : gmap string string := <[kv.1 := kv.2]> m.

Lemma unchanged_test_spec (old_log : gmap string string) rel_path sha :
  unchanged_test old_log rel_path sha = true <-> old_log !! rel_path = Some sha.
Proof.
  unfold unchanged_test. destruct (old_log !! rel_path) as [prev|] eqn:E.
  - rewrite String.eqb_eq. split; [intros ->; done | intros [= ->]; done].
  - split; [discriminate | done].
Qed.

Lemma dedupe_loop_paths root (old_log : gmap string string) items acc nl :
  (dedupe_loop root old_log items acc nl).1 =
  (acc ++ map (fun kv => path_join root kv.1)
            (List.filter (fun kv => unchanged_test old_log kv.1 kv.2) items))%list.
Proof.
  revert acc nl. induction items as [|[rel sha] rest IH]; intros acc nl; simpl.
  - by rewrite app_nil_r.
  - rewrite IH. destruct (unchanged_test old_log rel sha); simpl.
    + by rewrite <- app_assoc.
    + done.
Qed.

Lemma dedupe_loop_log root (old_log : gmap string string) items acc nl :
  (dedupe_loop root old_log items acc nl).2 = foldl log_insert nl items.
Proof.
  revert acc nl. induction items as [|[rel sha] rest IH]; intros acc nl; simpl.
  - done.
  - apply IH.
Qed.

Lemma foldl_log_insert_notin (items : list (string * string)) m rel :
  rel ∉ items.*1 -> foldl log_insert m items !! rel = m !! rel.
Proof.
  revert m. induction items as [|[k v] rest IH]; intros m Hnot; simpl in *.
  - done.
  - rewrite not_elem_of_cons in Hnot. destruct Hnot as [Hk Hrest].
    rewrite IH by done. unfold log_insert. simpl.
    by rewrite lookup_insert_ne.
Qed.

Lemma foldl_log_insert_in (items : list (string * string)) m rel sha :
  NoDup items.*1 -> (rel, sha) ∈ items -> foldl log_insert m items !! rel = Some sha.
Proof.
  revert m. induction items as [|[k v] rest IH]; intros m Hnd Hin; simpl in *.
  - by apply elem_of_nil in Hin.
  - apply NoDup_cons in Hnd as [Hk Hnd].
    apply elem_of_cons in Hin as [[= -> ->]|Hin].
    + rewrite foldl_log_insert_notin by done. unfold log_insert. simpl.
      by rewrite lookup_insert_eq.
    + by apply IH.
Qed.

(** C1 *)
(** Claim C1: a manifest pair [(rel_path, sha)] takes the UNCHANGED branch
    exactly when the old log holds [sha] for [rel_path]; the
    [unchanged_abs_paths] produced are exactly
    [os.path.join(portodb_root, rel_path)] of those pairs, in manifest
    order. *)
Theorem classify_unchanged_exact (portodb_root : string)
    (current_map : list (string * string)) (old_log : gmap string string) :
  (forall rel_path sha,
     unchanged_test old_log rel_path sha = true <-> old_log !! rel_path = Some sha) /\
  (classify portodb_root current_map old_log).1 =
    map (fun kv => path_join portodb_root kv.1)
      (List.filter (fun kv => unchanged_test old_log kv.1 kv.2) current_map) /\
  (forall p, In p (classify portodb_root current_map old_log).1 <->
     exists rel_path sha, In (rel_path, sha) current_map /\
       old_log !! rel_path = Some sha /\ p = path_join portodb_root rel_path).
Proof.
  split; [apply unchanged_test_spec|].
  assert (Hpaths : (classify portodb_root current_map old_log).1 =
    map (fun kv => path_join portodb_root kv.1)
      (List.filter (fun kv => unchanged_test old_log kv.1 kv.2) current_map)).
  { unfold classify. by rewrite dedupe_loop_paths. }
  split; [done|]. intros p. rewrite Hpaths, in_map_iff. split.
  - intros [[rel sha] [Hp Hin]]. apply filter_In in Hin as [Hin Ht].
    simpl in *. exists rel, sha. split; [done|].
    split; [by apply unchanged_test_spec | done].
  - intros (rel & sha & Hin & Hlk & ->). exists (rel, sha). split; [done|].
    apply filter_In. split; [done|]. by apply unchanged_test_spec.
Qed.

(** C2 *)
(** Claim C2: for a manifest with distinct relative paths (a dict), the
    updated log maps every manifest path to its current hash and every
    other path to what the old log had for it (nothing else appears). *)
Theorem classify_new_log (portodb_root : string)
    (current_map : list (string * string)) (old_log : gmap string string) :
  NoDup current_map.*1 ->
  (forall rel_path sha, (rel_path, sha) ∈ current_map ->
     (classify portodb_root current_map old_log).2 !! rel_path = Some sha) /\
  (forall rel_path, rel_path ∉ current_map.*1 ->
     (classify portodb_root current_map old_log).2 !! rel_path = old_log !! rel_path).
Proof.
  intros Hnd. unfold classify. rewrite dedupe_loop_log. split.
  - intros rel sha Hin. by apply foldl_log_insert_in.
  - intros rel Hnot. by apply foldl_log_insert_notin.
Qed.

(** C3 *)
(** Claim C3: against an empty old log (first run) no manifest pair takes
    the UNCHANGED branch and [unchanged_abs_paths] is empty. *)
Theorem classify_first_run (portodb_root : string)
    (current_map : list (string * string)) :
  (forall rel_path sha, In (rel_path, sha) current_map ->
     unchanged_test ∅ rel_path sha = false) /\
  (classify portodb_root current_map ∅).1 = [].
Proof.
  split; [done|]. unfold classify. rewrite dedupe_loop_paths. simpl.
  induction current_map as [|kv rest IH]; simpl; done.
Qed.

(** ** Hashing and the manifest *)

Lemma hash_loop_unreadable root (items : list (string * option (list Byte.byte))) rel :
  In (rel, None) items -> rel <> sha_file_name ->
  exists p, hash_loop root items = Err (IOError p).
Proof.
  induction items as [|[r c] rest IH]; intros Hin Hne; simpl in *.
  - done.
  - destruct (String.eqb r sha_file_name) eqn:Hr.
    + apply String.eqb_eq in Hr. subst r.
      destruct Hin as [[= Heq _]|Hin]; [by subst|]. by apply IH.
    + destruct Hin as [[= -> ->]|Hin].
      * simpl. by eexists.
      * destruct (IH Hin Hne) as [p Hp].
        destruct c as [bs|]; simpl; [rewrite Hp|]; by eexists.
Qed.

Lemma hash_loop_ok root (items : list (string * option (list Byte.byte))) sha_map :
  hash_loop root items = Ok sha_map ->
  sha_map.*1 = List.filter (fun r => negb (String.eqb r sha_file_name)) items.*1 /\
  (forall rel sha, In (rel, sha) sha_map ->
     exists bs, In (rel, Some bs) items /\ sha = sha256_hex bs).
Proof.
  revert sha_map. induction items as [|[r c] rest IH]; intros sha_map H; simpl in *.
  - injection H as <-. split; [done|]. intros ?? [].
  - destruct (String.eqb r sha_file_name) eqn:Hr; simpl.
    + destruct (IH _ H) as [H1 H2]. split; [done|].
      intros rel sha Hin. destruct (H2 _ _ Hin) as (bs & Hbs & ->). eauto.
    + destruct c as [bs|]; simpl in H; [|discriminate].
      destruct (hash_loop root rest) as [others|] eqn:Hrest; simpl in H; [|discriminate].
      injection H as <-. destruct (IH _ eq_refl) as [H1 H2]. simpl.
      split; [f_equal; exact H1|].
      intros rel sha [[= -> <-]|Hin]; [by eauto|].
      destruct (H2 _ _ Hin) as (bs' & Hbs & ->). eauto.
Qed.

(** C4 *)
(** Claim C4 (as the code behaves): when a file other than SHA256.txt
    under the PortoDB root cannot be read, [compute_sha256] raises and
    nothing catches it: [write_sha256_file] and
    [process_portodb_hashes_and_dedupe] both end in that exception, so no
    SHA256.txt is written, the log is not saved and no delete script is
    generated for the run. *)
Theorem unreadable_file_aborts_dedupe (portodb_root backup_root cwd timestamp : string)
    (tree : list entry) (w : world) (rel : string) :
  In (rel, None) (walk tree) -> rel <> sha_file_name ->
  exists p,
    (forall store, write_sha256_file portodb_root tree store = Err (IOError p)) /\
    process_portodb_hashes_and_dedupe true portodb_root backup_root cwd timestamp
      tree w = Err (IOError p).
Proof.
  intros Hin Hne. destruct (hash_loop_unreadable portodb_root _ _ Hin Hne) as [p Hp].
  exists p. unfold process_portodb_hashes_and_dedupe, write_sha256_file. simpl.
  rewrite Hp. by split.
Qed.

(** C5 *)
(** Claim C5 at a re-run over a PortoDB directory that already holds a
    SHA256.txt: [open(sha_file_path, "w")] truncates the old manifest in
    place before the new text is written, so the store passes through a
    state where SHA256.txt is empty, which is neither the old manifest nor
    the new one. *)
Theorem manifest_write_passes_through_empty :
  let root := "/run/portodb" in
  let old := "e3b0  a.db" +:+ newline in
  let tree := [EFile "SHA256.txt" (Some (String.list_byte_of_string old));
               EFile "a.db" (Some [])] in
  let store0 : gmap string string := {[ path_join root sha_file_name := old ]} in
  exists sha_map trace out,
    write_sha256_file root tree store0 = Ok (sha_map, trace, out) /\
    sha_map = [("a.db", sha256_hex [])] /\
    exists st, In st trace /\
      st !! path_join root sha_file_name = Some "" /\
      "" <> old /\ "" <> manifest_text sha_map.
Proof.
  simpl. do 3 eexists. split; [reflexivity|]. split; [reflexivity|].
  eexists. split; [left; reflexivity|]. split; [by rewrite lookup_insert_eq|].
  split; [discriminate|]. unfold manifest_text. simpl.
  destruct (sha256_hex []); discriminate.
Qed.

(** X21 *)
(** After a successful [write_sha256_file], SHA256.txt holds one line
    ["<sha256 hexdigest>  <relative path>"] per file [os.walk] reports
    (SHA256.txt itself excepted), newline-terminated, in [os.walk] visiting
    order, each hash being the digest of that file's content. *)
Theorem manifest_in_walk_order (portodb_root : string) (tree : list entry)
    (store : gmap string string) sha_map trace out :
  write_sha256_file portodb_root tree store = Ok (sha_map, trace, out) ->
  sha_map.*1 = List.filter (fun r => negb (String.eqb r sha_file_name)) (walk tree).*1 /\
  (forall rel sha, In (rel, sha) sha_map ->
     exists bs, In (rel, Some bs) (walk tree) /\ sha = sha256_hex bs) /\
  last_store store trace !! path_join portodb_root sha_file_name =
    Some (join_lines (map (fun kv => kv.2 +:+ "  " +:+ kv.1) sha_map) +:+
          match sha_map with [] => "" | _ => newline end).
Proof.
  unfold write_sha256_file.
  destruct (hash_loop portodb_root (walk tree)) as [sm|] eqn:H; simpl; [|discriminate].
  intros [= <- <- <-]. destruct (hash_loop_ok _ _ _ H) as [H1 H2].
  split; [done|]. split; [done|].
  unfold last_store, write_text_trace. simpl. rewrite lookup_insert_eq.
  unfold manifest_text. by destruct sm.
Qed.

(** C6 *)
(** Claim C6 fails on the code: for a PortoDB root holding [z.txt] and
    [a/b.txt], whatever their digests, [write_sha256_file] writes the line
    of [z.txt] before the line of [a/b.txt] ([os.walk] yields a directory's
    own files before those of its subdirectories, and nothing sorts them),
    although ["a/b.txt"] sorts before ["z.txt"]: the manifest is not sorted
    by relative path. *)
Theorem manifest_not_sorted_by_path :
  let root := "/run/portodb" in
  let tree := [EFile "z.txt" (Some []); EDir "a" [EFile "b.txt" (Some [Byte.x01])]] in
  exists trace out,
    write_sha256_file root tree ∅ =
      Ok ([("z.txt", sha256_hex []); ("a/b.txt", sha256_hex [Byte.x01])], trace, out) /\
    last_store ∅ trace !! path_join root sha_file_name =
      Some (sha256_hex [] +:+ "  z.txt" +:+ newline +:+
            sha256_hex [Byte.x01] +:+ "  a/b.txt" +:+ newline) /\
    String.leb "a/b.txt" "z.txt" = true /\ String.leb "z.txt" "a/b.txt" = false.
Proof.
  simpl. do 2 eexists. split; [reflexivity|].
  split; [|split; reflexivity].
  unfold last_store, write_text_trace. simpl. rewrite lookup_insert_eq.
  unfold manifest_text, manifest_line. simpl. f_equal.
  rewrite !str_app_assoc. reflexivity.
Qed.

(** ** The JSON log *)

Lemma py_dict_foldl (members : list (string * jvalue)) (acc : gmap string jvalue) :
  NoDup members.*1 ->
  foldl (fun (m : gmap string jvalue) kv => <[kv.1 := kv.2]> m) acc members
    = list_to_map members ∪ acc.
Proof.
  revert acc. induction members as [|[k v] rest IH]; intros acc Hnd; simpl.
  - by rewrite map_empty_union.
  - apply NoDup_cons in Hnd as [Hk Hnd]. simpl in Hk.
    rewrite IH by done. rewrite <- insert_union_l.
    rewrite insert_union_r; [done|]. by apply not_elem_of_list_to_map_1.
Qed.

Lemma py_dict_list_to_map (members : list (string * jvalue)) :
  NoDup members.*1 -> py_dict members = list_to_map members.
Proof. intros Hnd. unfold py_dict. by rewrite py_dict_foldl, map_union_empty. Qed.

Lemma dict_members_perm (data : gmap string string) :
  sort_members ((fun kv => (kv.1, JStr kv.2)) <$> map_to_list data)
    ≡ₚ (fun kv => (kv.1, JStr kv.2)) <$> map_to_list data.
Proof. apply merge_sort_Permutation. Qed.

Lemma dict_members_fst (data : gmap string string) :
  ((fun kv : string * string => (kv.1, JStr kv.2)) <$> map_to_list data).*1
    = (map_to_list data).*1.
Proof. rewrite <- list_fmap_compose. by apply list_fmap_ext. Qed.

Lemma py_dict_of_dict (data : gmap string string) :
  (forall s, py_str (JStr s) = s) ->
  py_str <$> py_dict (sort_members ((fun kv => (kv.1, JStr kv.2)) <$> map_to_list data))
    = data.
Proof.
  intros Hstr.
  set (L := (fun kv : string * string => (kv.1, JStr kv.2)) <$> map_to_list data).
  assert (HndL : NoDup L.*1).
  { unfold L. rewrite dict_members_fst. apply NoDup_fst_map_to_list. }
  assert (Hp : sort_members L ≡ₚ L) by apply dict_members_perm.
  assert (Hnd : NoDup (sort_members L).*1) by (by rewrite Hp).
  rewrite py_dict_list_to_map by done.
  rewrite (list_to_map_proper _ L) by done.
  apply map_eq. intros k. rewrite lookup_fmap.
  destruct (data !! k) as [v|] eqn:Hk.
  - assert (Hin : (k, JStr v) ∈ L).
    { unfold L. apply list_elem_of_fmap. exists (k, v). split; [done|].
      by apply elem_of_map_to_list. }
    apply (elem_of_list_to_map (M := gmap string)) in Hin; [|done].
    rewrite Hin. simpl. by rewrite Hstr.
  - rewrite not_elem_of_list_to_map_1; [done|].
    unfold L. rewrite dict_members_fst. intros Hin.
    apply list_elem_of_fmap in Hin as [[k' v'] [-> Hin]].
    apply elem_of_map_to_list in Hin. simpl in *. congruence.
Qed.

(** C7 *)
(** Claim C7: with no log file [load_portodb_log] returns [{}] and prints
    nothing; when reading or decoding the file raises, it prints a warning
    carrying the exception's message and returns [{}]. *)
Theorem load_absent_or_unparseable (store : gmap string text) (log_path : string) :
  (store !! log_path = None -> load_portodb_log store log_path = (∅, [])) /\
  (forall doc e, store !! log_path = Some doc -> json_load doc = inr e ->
     load_portodb_log store log_path =
       (∅, ["[WARN] Could not read existing PortoDB SHA log: " +:+ e])).
Proof.
  unfold load_portodb_log. split.
  - by intros ->.
  - intros doc e -> He. by rewrite He.
Qed.

(** C8 *)
(** Claim C8: given that [json.load] reads back what [json.dump] wrote and
    that [str()] is the identity on strings, [save_portodb_log(p, m)]
    followed by [load_portodb_log(p)] returns [m], with no warning. *)
Theorem save_then_load (store : gmap string text) (log_path : string)
    (m : gmap string string) :
  (forall v, json_load (json_dump v) = inl v) ->
  (forall s, py_str (JStr s) = s) ->
  load_portodb_log (save_portodb_log store log_path m).1 log_path = (m, []).
Proof.
  intros Hjson Hstr. unfold save_portodb_log, os_replace. simpl.
  rewrite lookup_insert_eq. unfold load_portodb_log.
  rewrite lookup_insert_eq, Hjson. unfold dict_to_json. by rewrite py_dict_of_dict.
Qed.

(** C10 *)
(** Claim C10: when the log decodes to a JSON value that is not an object,
    [load_portodb_log] returns [{}] without printing; when it decodes to an
    object, the result maps each key of the decoded dict to [str()] of its
    value, again without printing. *)
Theorem load_non_object_or_coerced (store : gmap string text) (log_path : string)
    (doc : text) (v : jvalue) :
  store !! log_path = Some doc -> json_load doc = inl v ->
  ((forall members, v <> JObject members) ->
     load_portodb_log store log_path = (∅, [])) /\
  (forall members, v = JObject members ->
     (load_portodb_log store log_path).2 = [] /\
     forall k s, (load_portodb_log store log_path).1 !! k = Some s <->
       exists jv, py_dict members !! k = Some jv /\ s = py_str jv).
Proof.
  intros Hdoc Hv. unfold load_portodb_log. rewrite Hdoc, Hv. split.
  - intros Hnot. destruct v; try done. by destruct (Hnot members).
  - intros members ->. simpl. split; [done|]. intros k s.
    rewrite lookup_fmap. destruct (py_dict members !! k) as [jv|]; simpl.
    + split; [intros [= <-]; by eauto | intros (jv' & [= <-] & ->); done].
    + split; [discriminate | intros (jv' & ? & _); discriminate].
Qed.

(** ** The delete script *)

(** C9 *)
(** Claim C9: with no unchanged files [generate_portodb_delete_script]
    leaves the store as it is (no script file is written) and only prints
    that there is nothing to delete. *)
Theorem delete_script_empty_is_noop (cwd timestamp : string)
    (store : gmap string string) :
  generate_portodb_delete_script cwd timestamp [] store = (store, [no_unchanged_msg]).
Proof. reflexivity. Qed.


(** ** Further properties of the PortoDB dedupe *)

Lemma str_app_neq s c t : s <> s +:+ String c t.
Proof.
  induction s as [|a s IH]; [done|]. rewrite str_app_cons. intros [= H]. by apply IH.
Qed.

(** X16 *)
(** [save_portodb_log(log_path, data)] leaves the JSON document of [data]
    at [log_path], no [log_path + ".tmp"] file (even one left over from
    an earlier run), and every other file as it was; it prints one line. *)
Theorem save_portodb_log_frame (store : gmap string text) (log_path : string)
    (data : gmap string string) :
  let res := save_portodb_log store log_path data in
  res.1 !! log_path = Some (json_dump (dict_to_json data)) /\
  res.1 !! (log_path +:+ ".tmp") = None /\
  (forall q, q <> log_path -> q <> log_path +:+ ".tmp" -> res.1 !! q = store !! q) /\
  res.2 = ["[OK] PortoDB SHA log updated at " +:+ log_path].
Proof.
  unfold save_portodb_log, os_replace. simpl. rewrite lookup_insert_eq.
  assert (Hne : log_path +:+ ".tmp" <> log_path) by (intros H; by apply (str_app_neq log_path "." "tmp")).
  split; [by rewrite lookup_insert_eq|].
  split; [rewrite lookup_insert_ne by done; apply lookup_delete_eq|].
  split; [|done]. intros q Hq1 Hq2.
  rewrite lookup_insert_ne by done. rewrite lookup_delete_ne by done.
  by rewrite lookup_insert_ne.
Qed.

#[local] Instance key_le_total : Total key_le.
Proof. intros a b. unfold key_le. apply String.leb_total. Qed.

#[local] Instance key_le_trans : Transitive key_le.
Proof.
  intros a b c. unfold key_le. intros Hab Hbc.
  pose proof (@PreOrder_Transitive _ String.le _ a.1 b.1 c.1) as H.
  unfold String.le in H. rewrite Hab, Hbc in H. apply Is_true_true, H; done.
Qed.

(** X17 *)
(** The document [save_portodb_log] writes ([json.dump] with
    [sort_keys=True]) is a JSON object holding every entry of the dict
    exactly once, as a string, with the keys in ascending order. *)
Theorem dict_to_json_sorted (data : gmap string string) :
  exists members, dict_to_json data = JObject members /\
    StronglySorted key_le members /\ NoDup members.*1 /\
    (forall k v, (k, v) ∈ members <-> exists s, data !! k = Some s /\ v = JStr s).
Proof.
  set (L := (fun kv : string * string => (kv.1, JStr kv.2)) <$> map_to_list data).
  exists (sort_members L). split; [done|].
  assert (Hp : sort_members L ≡ₚ L) by apply dict_members_perm.
  split; [unshelve eapply (StronglySorted_merge_sort key_le)|].
  split; [rewrite Hp; unfold L; rewrite dict_members_fst; apply NoDup_fst_map_to_list|].
  intros k v. rewrite Hp. unfold L. rewrite list_elem_of_fmap. split.
  - intros [[k' s] [[= -> ->] Hin]]. apply elem_of_map_to_list in Hin. by exists s.
  - intros [s [Hk ->]]. exists (k, s). split; [done|]. by apply elem_of_map_to_list.
Qed.

Lemma save_load_log (store : gmap string text) (log_path : string) (m : gmap string string) :
  (forall v, json_load (json_dump v) = inl v) ->
  (forall s, py_str (JStr s) = s) ->
  load_portodb_log (save_portodb_log store log_path m).1 log_path = (m, []).
Proof.
  intros Hjson Hstr. unfold save_portodb_log, os_replace. simpl.
  rewrite lookup_insert_eq. unfold load_portodb_log.
  rewrite lookup_insert_eq, Hjson. unfold dict_to_json. by rewrite py_dict_of_dict.
Qed.

Lemma process_run (portodb_root backup_root cwd timestamp : string) (tree : list entry)
    (w : world) sm :
  hash_loop portodb_root (walk tree) = Ok sm ->
  let log_path := path_join backup_root log_file_name in
  let store1 := last_store (texts w)
    (write_text_trace (texts w) (path_join portodb_root sha_file_name) (manifest_text sm)) in
  let old_log := (load_portodb_log (jsons w) log_path).1 in
  let cls := classify portodb_root sm old_log in
  let saved := save_portodb_log (jsons w) log_path cls.2 in
  let gen := generate_portodb_delete_script cwd timestamp cls.1 store1 in
  exists out,
    process_portodb_hashes_and_dedupe true portodb_root backup_root cwd timestamp tree w
    = Ok (mkWorld gen.1 saved.1, out) /\
    (cls.1 <> [] ->
       In ("[INFO] " +:+ pretty (N.of_nat (length cls.1))
             +:+ " PortoDB files unchanged since last export.") out).
Proof.
  intros Hsm. cbv zeta.
  unfold process_portodb_hashes_and_dedupe, write_sha256_file. rewrite Hsm.
  cbn [negb rbind].
  destruct (load_portodb_log (jsons w) (path_join backup_root log_file_name)) as [ol o2].
  cbn [fst snd]. destruct (classify portodb_root sm ol) as [u nl].
  cbn [fst snd]. destruct (save_portodb_log (jsons w) (path_join backup_root log_file_name) nl) as [j' o3].
  cbn [fst snd]. destruct (generate_portodb_delete_script _ _ _ _) as [t' o5].
  simpl. eexists. split; [reflexivity|].
  intros Hu. destruct u as [|x u]; [done|].
  right. apply in_or_app. right. apply in_or_app. right. by left.
Qed.



(** X18 *)
(** When every file under the PortoDB root can be read, the run
    succeeds; afterwards the log read back from
    [backup_root/portodb_sha_log.json] is the previous log updated with
    every (relative path, hash) of this run's manifest, and no other JSON
    file than the log and its [.tmp] has changed. *)
Theorem process_updates_log (portodb_root backup_root cwd timestamp : string)
    (tree : list entry) (w : world) sm :
  (forall v, json_load (json_dump v) = inl v) ->
  (forall s, py_str (JStr s) = s) ->
  hash_loop portodb_root (walk tree) = Ok sm ->
  let log_path := path_join backup_root log_file_name in
  exists w' out,
    process_portodb_hashes_and_dedupe true portodb_root backup_root cwd timestamp tree w
      = Ok (w', out) /\
    load_portodb_log (jsons w') log_path =
      (foldl log_insert (load_portodb_log (jsons w) log_path).1 sm, []) /\
    (forall q, q <> log_path -> q <> log_path +:+ ".tmp" -> jsons w' !! q = jsons w !! q).
Proof.
  intros Hjson Hstr Hsm. cbv zeta.
  destruct (process_run portodb_root backup_root cwd timestamp tree w sm Hsm) as [out [Hrun _]].
  eexists _, out. split; [exact Hrun|]. cbn [jsons]. split.
  - rewrite save_load_log by done. unfold classify. by rewrite dedupe_loop_log.
  - intros q Hq1 Hq2. unfold save_portodb_log, os_replace. simpl.
    rewrite lookup_insert_eq.
    rewrite lookup_insert_ne by done. rewrite lookup_delete_ne by done.
    by rewrite lookup_insert_ne.
Qed.


(** X20 *)
(** Every path [process_portodb_hashes_and_dedupe] marks for deletion
    lies under [portodb_root] (the root is a string prefix of it), given
    that [os.walk] reports no relative path starting with '/'. *)
Theorem unchanged_paths_under_root (portodb_root : string) (tree : list entry)
    (store : gmap string string) sm trace out (old_log : gmap string string) :
  write_sha256_file portodb_root tree store = Ok (sm, trace, out) ->
  Forall (fun rc => starts_with_slash rc.1 = false) (walk tree) ->
  forall p, In p (classify portodb_root sm old_log).1 -> String.prefix portodb_root p = true.
Proof.
  unfold write_sha256_file.
  destruct (hash_loop portodb_root (walk tree)) as [sm'|] eqn:H; simpl; [|discriminate].
  intros [= <- _ _] Hwalk p Hp. destruct (hash_loop_ok _ _ _ H) as [H1 _].
  unfold classify in Hp. rewrite dedupe_loop_paths in Hp. simpl in Hp.
  apply in_map_iff in Hp as [[rel sha] [<- Hin]]. apply filter_In in Hin as [Hin _].
  assert (Hrel : In rel (walk tree).*1).
  { assert (Hr : In rel sm'.*1) by (apply list_elem_of_In, list_elem_of_fmap; exists (rel, sha);
      split; [done|]; by apply list_elem_of_In).
    rewrite H1 in Hr. by apply filter_In in Hr as [? _]. }
  apply list_elem_of_In, list_elem_of_fmap in Hrel as [[r c] [-> Hrc]].
  rewrite Forall_forall in Hwalk. specialize (Hwalk _ Hrc).
  simpl in *. unfold path_join. rewrite Hwalk.
  destruct (String.eqb portodb_root "") eqn:E.
  - apply String.eqb_eq in E. subst. apply prefix_nil.
  - destruct (ends_with_slash portodb_root).
    + apply prefix_app.
    + apply prefix_app.
Qed.

End Program.

(** * Properties of the path helpers *)





Lemma has_char_app c x y : has_char c (x +:+ y) = has_char c x || has_char c y.
Proof. induction x as [|a x IH]; simpl; [done|]. rewrite IH. by destruct (Ascii.eqb a c). Qed.

Lemma split_on_no_char c x : has_char c x = false -> split_on c x = [x].
Proof.
  induction x as [|a x IH]; simpl; [done|].
  intros H. apply orb_false_iff in H as [Ha Hx]. rewrite Ha, IH by done. done.
Qed.

Lemma split_on_app c x y :
  has_char c x = false -> split_on c (x +:+ String c y) = x :: split_on c y.
Proof.
  induction x as [|a x IH]; simpl; intros H.
  - by rewrite Ascii.eqb_refl.
  - apply orb_false_iff in H as [Ha Hx]. rewrite Ha, IH by done. done.
Qed.

Lemma split_on_concat c (cs : list string) :
  cs <> [] -> Forall (fun w => has_char c w = false) cs ->
  split_on c (String.concat (String c "") cs) = cs.
Proof.
  induction cs as [|w [|w' cs] IH]; intros Hne Hall; [done| |].
  - simpl. apply Forall_cons in Hall as [Hw _]. by apply split_on_no_char.
  - apply Forall_cons in Hall as [Hw Hall].
    change (String.concat (String c "") (w :: w' :: cs))
      with (w +:+ String c (String.concat (String c "") (w' :: cs))).
    rewrite split_on_app by done. f_equal. by apply IH.
Qed.

Lemma split_on_pieces c s : Forall (fun w => has_char c w = false) (split_on c s).
Proof.
  induction s as [|a s IH]; simpl; [by repeat constructor|].
  destruct (Ascii.eqb a c) eqn:Ha; [by constructor|].
  destruct (split_on c s) as [|w ws].
  { constructor; [simpl; by rewrite Ha|constructor]. }
  apply Forall_cons in IH as [Hw Hws]. constructor; [|done]. simpl. by rewrite Ha.
Qed.

Lemma split_on_nonempty c s : split_on c s <> [].
Proof.
  induction s as [|a s IH]; simpl; [done|].
  destruct (Ascii.eqb a c); [done|]. by destruct (split_on c s).
Qed.

Lemma concat_no_char c sep (l : list string) :
  has_char c sep = false -> Forall (fun w => has_char c w = false) l ->
  has_char c (String.concat sep l) = false.
Proof.
  intros Hsep. induction l as [|w [|w' l] IH]; intros Hall; [done| |].
  - by apply Forall_cons in Hall as [? _].
  - apply Forall_cons in Hall as [Hw Hall].
    change (String.concat sep (w :: w' :: l)) with (w +:+ sep +:+ String.concat sep (w' :: l)).
    rewrite !has_char_app, Hw, Hsep. simpl. by apply IH.
Qed.

Lemma ascii_upper_slash a : ascii_upper a = slash -> a = slash.
Proof.
  unfold ascii_upper. destruct ((97 <=? nat_of_ascii a)%nat && (nat_of_ascii a <=? 122)%nat) eqn:E;
    [|done].
  intros H. apply andb_true_iff in E as [E1 E2]. apply Nat.leb_le in E1, E2.
  apply (f_equal nat_of_ascii) in H. rewrite nat_ascii_embedding in H by lia.
  assert (Hs : nat_of_ascii slash = 47%nat) by reflexivity. rewrite Hs in H. lia.
Qed.

Lemma ascii_str_upper_no_slash s : has_char slash s = false -> has_char slash (ascii_str_upper s) = false.
Proof.
  induction s as [|a s IH]; simpl; [done|]. intros H.
  apply orb_false_iff in H as [Ha Hs]. rewrite IH by done.
  destruct (Ascii.eqb (ascii_upper a) slash) eqn:E; [|done].
  apply Ascii.eqb_eq, ascii_upper_slash in E. subst. by rewrite Ascii.eqb_refl in Ha.
Qed.

Lemma plain_component_spec s :
  plain_component s = true ->
  has_char slash s = false /\ s <> "" /\ s <> "." /\ s <> "..".
Proof.
  unfold plain_component. intros H.
  repeat (apply andb_true_iff in H as [H ?]). apply negb_true_iff in H.
  repeat match goal with Hx : negb _ = true |- _ => apply negb_true_iff, String.eqb_neq in Hx end.
  auto.
Qed.

Lemma norm_loop_plain b (comps stk : list string) :
  Forall (fun w => plain_component w = true) comps ->
  norm_loop b comps stk = (rev comps ++ stk)%list.
Proof.
  revert stk. induction comps as [|w comps IH]; intros stk Hall; simpl; [done|].
  apply Forall_cons in Hall as [Hw Hall].
  destruct (plain_component_spec w Hw) as (_ & H1 & H2 & H3).
  apply String.eqb_neq in H1, H2, H3. rewrite H1, H2, H3. simpl.
  rewrite IH by done. by rewrite <- app_assoc.
Qed.

Lemma normpath_absolute_plain (comps : list string) :
  comps <> [] -> Forall (fun w => plain_component w = true) comps ->
  normpath ("/" +:+ String.concat "/" comps) = "/" +:+ String.concat "/" comps.
Proof.
  intros Hne Hall.
  destruct comps as [|w comps]; [done|].
  pose proof (Forall_inv Hall) as Hw.
  destruct (plain_component_spec w Hw) as (Hws & Hwne & _).
  destruct w as [|a w']; [done|].
  assert (Ha : Ascii.eqb a slash = false).
  { simpl in Hws. by apply orb_false_iff in Hws as [? _]. }
  assert (Hsplit : split_on slash ("/" +:+ String.concat "/" (String a w' :: comps))
                   = "" :: String a w' :: comps).
  { change ("/" +:+ String.concat "/" (String a w' :: comps))
      with (String slash (String.concat (String slash "") (String a w' :: comps))).
    assert (Hs1 : forall x, split_on slash (String slash x) = "" :: split_on slash x)
      by (intros x; reflexivity).
    rewrite Hs1. f_equal.
    apply split_on_concat; [done|].
    eapply Forall_impl; [exact Hall|]. intros x Hx. by apply plain_component_spec. }
  unfold normpath. rewrite Hsplit.
  assert (Hpre : String.prefix "//" ("/" +:+ String.concat "/" (String a w' :: comps)) = false).
  { assert (Ha' : a <> "/"%char).
    { intros ->. discriminate Ha. }
    destruct comps; rewrite ?str_app_cons, ?str_app_nil; cbn -[ascii_dec];
      destruct (ascii_dec "/" "/"); try congruence;
      rewrite ?str_app_cons; cbn -[ascii_dec];
      destruct (ascii_dec "/" a); congruence. }
  rewrite Hpre.
  set (X := String.concat "/" (String a w' :: comps)) in *.
  assert (HX : "/" +:+ X = String "/" X) by reflexivity.
  rewrite !HX.
  assert (E1 : String.eqb (String "/" X) "" = false) by reflexivity.
  assert (E2 : String.prefix "/" (String "/" X) = true) by (by rewrite prefix_cons_same, prefix_nil).
  rewrite E1, E2. cbn [andb negb Nat.eqb].
  assert (E3 : bool_decide (1%nat <> 0%nat) = true) by reflexivity. rewrite E3.
  assert (E4 : norm_loop true ("" :: String a w' :: comps) [] = rev (String a w' :: comps)).
  { change (norm_loop true ("" :: String a w' :: comps) []) with (norm_loop true (String a w' :: comps) []). rewrite norm_loop_plain by done. by rewrite app_nil_r. }
  rewrite E4, rev_involutive. fold X. rewrite HX. reflexivity.
Qed.


Lemma split_absolute (comps : list string) :
  comps <> [] -> Forall (fun w => has_char slash w = false) comps ->
  split_on slash ("/" +:+ String.concat "/" comps) = "" :: comps.
Proof.
  intros Hne Hall.
  change ("/" +:+ String.concat "/" comps)
    with (String slash (String.concat (String slash "") comps)).
  change (split_on slash (String slash (String.concat (String slash "") comps)))
    with ("" :: split_on slash (String.concat (String slash "") comps)).
  f_equal. by apply split_on_concat.
Qed.

Lemma plain_no_slash (comps : list string) :
  Forall (fun w => plain_component w = true) comps ->
  Forall (fun w => has_char slash w = false) comps.
Proof. intros H. eapply Forall_impl; [exact H|]. intros x Hx. by apply plain_component_spec. Qed.

(** X1 *)
(** [wsl_to_win_path]: a converted path is the third '/'-component of the
    normalised path, passed through [str.upper()], then [":\"], then the
    remaining components (at least one) joined with backslashes; as
    upper-casing never introduces a '/' (true of [str.upper()]), it never
    contains a forward slash. *)
Theorem wsl_to_win_path_shape (py_upper : string -> string) (wsl_path win : string) :
  (forall s, has_char slash s = false -> has_char slash (py_upper s) = false) ->
  wsl_to_win_path py_upper wsl_path = inl win ->
  has_char slash win = false /\
  exists p0 p1 drive rest,
    split_on slash (normpath wsl_path) = p0 :: p1 :: drive :: rest /\ rest <> [] /\
    win = py_upper drive +:+ ":\" +:+ String.concat "\" rest.
Proof.
  intros Hup. unfold wsl_to_win_path.
  destruct (String.prefix "/mnt/" (normpath wsl_path)); simpl; [|discriminate].
  pose proof (split_on_pieces slash (normpath wsl_path)) as Hpieces.
  destruct (split_on slash (normpath wsl_path)) as [|p0 [|p1 [|drive [|r rest]]]];
    cbn [length Nat.ltb Nat.leb negb]; try discriminate.
  intros [= <-]. apply Forall_cons in Hpieces as [_ Hpieces].
  apply Forall_cons in Hpieces as [_ Hpieces].
  apply Forall_cons in Hpieces as [Hd Hrest]. split.
  - rewrite !has_char_app. rewrite Hup by done.
    pose proof (concat_no_char slash "\" (r :: rest) eq_refl Hrest) as Hc. simpl String.concat in Hc. rewrite Hc. reflexivity.
  - exists p0, p1, drive, (r :: rest). by repeat split.
Qed.

(** X2 *)
(** [wsl_to_win_path] on a clean mount path [/mnt/<d>/<c1>/.../<cn>]
    (components non-empty, without '/', not "." or "..", n >= 1) returns
    [<D>:\<c1>\...\<cn>], where [<D>] is [<d>.upper()]. *)
Theorem wsl_to_win_path_mount (py_upper : string -> string) (drive : string)
    (comps : list string) :
  plain_component drive = true -> comps <> [] ->
  Forall (fun w => plain_component w = true) comps ->
  wsl_to_win_path py_upper ("/mnt/" +:+ drive +:+ "/" +:+ String.concat "/" comps)
  = inl (py_upper drive +:+ ":\" +:+ String.concat "\" comps).
Proof.
  intros Hd Hne Hall.
  assert (Hin : "/mnt/" +:+ drive +:+ "/" +:+ String.concat "/" comps
                = "/" +:+ String.concat "/" ("mnt" :: drive :: comps))
    by (destruct comps; [done|reflexivity]).
  assert (Hplain : Forall (fun w => plain_component w = true) ("mnt" :: drive :: comps))
    by (repeat constructor; done).
  unfold wsl_to_win_path. rewrite Hin, normpath_absolute_plain by done.
  rewrite <- Hin, prefix_app. simpl negb. cbn iota. rewrite Hin.
  rewrite split_absolute by (done || by apply plain_no_slash).
  destruct comps as [|c comps]; [done|]. reflexivity.
Qed.

(** X3 *)
(** [wsl_to_win_path] refuses a bare drive mount [/mnt/<d>]: it raises
    [ValueError("Unexpected WSL path format: /mnt/<d>")]. *)
Theorem wsl_to_win_path_bare_mount (py_upper : string -> string) (drive : string) :
  plain_component drive = true ->
  wsl_to_win_path py_upper ("/mnt/" +:+ drive) = inr ("Unexpected WSL path format: /mnt/" +:+ drive).
Proof.
  intros Hd.
  assert (Hin : "/mnt/" +:+ drive = "/" +:+ String.concat "/" ["mnt"; drive]) by reflexivity.
  assert (Hplain : Forall (fun w => plain_component w = true) ["mnt"; drive])
    by (repeat constructor; done).
  unfold wsl_to_win_path. rewrite Hin, normpath_absolute_plain by done.
  rewrite <- Hin, prefix_app. simpl negb. cbn iota. rewrite Hin.
  rewrite split_absolute by (done || by apply plain_no_slash). reflexivity.
Qed.

(** * Properties of load_config *)

Lemma lstrip_by_idem p s : lstrip_by p (lstrip_by p s) = lstrip_by p s.
Proof.
  induction s as [|c s IH]; simpl; [done|].
  destruct (p c) eqn:Hc; [done|]. simpl. by rewrite Hc.
Qed.

Lemma rstrip_by_idem p s : rstrip_by p (rstrip_by p s) = rstrip_by p s.
Proof.
  induction s as [|c s IH]; simpl; [done|].
  destruct (String.eqb (rstrip_by p s) "" && p c) eqn:E; [done|].
  simpl. rewrite IH, E. done.
Qed.

(** The first character, if any, is not stripped by [p]. *)
Definition lstripped (p : ascii -> bool) (s : string) : bool :=
  match s with
  | String c _ => negb (p c)
  | EmptyString => true
  end.

Lemma lstrip_by_lstripped p s : lstripped p (lstrip_by p s) = true.
Proof.
  induction s as [|c s IH]; simpl; [done|].
  destruct (p c) eqn:Hc; [done|]. simpl. by rewrite Hc.
Qed.

Lemma lstrip_by_of_lstripped p s : lstripped p s = true -> lstrip_by p s = s.
Proof. destruct s as [|c s]; simpl; [done|]. by destruct (p c). Qed.

Lemma rstrip_by_lstripped p s : lstripped p s = true -> lstripped p (rstrip_by p s) = true.
Proof.
  destruct s as [|c s]; simpl; [done|]. intros Hc.
  destruct (p c) eqn:E; simpl in *; [done|]. rewrite andb_false_r. simpl. by rewrite E.
Qed.

Lemma py_strip_idem s : py_strip (py_strip s) = py_strip s.
Proof.
  unfold py_strip. rewrite (lstrip_by_of_lstripped _ (rstrip_by _ _)).
  - apply rstrip_by_idem.
  - apply rstrip_by_lstripped, lstrip_by_lstripped.
Qed.

Lemma lstrip_by_has_char p c s : has_char c s = false -> has_char c (lstrip_by p s) = false.
Proof.
  induction s as [|a s IH]; simpl; [done|]. intros H.
  apply orb_false_iff in H as [Ha Hs]. destruct (p a); [by apply IH|]. simpl. by rewrite Ha, Hs.
Qed.

Lemma rstrip_by_has_char p c s : has_char c s = false -> has_char c (rstrip_by p s) = false.
Proof.
  induction s as [|a s IH]; simpl; [done|]. intros H.
  apply orb_false_iff in H as [Ha Hs].
  destruct (String.eqb (rstrip_by p s) "" && p a); [done|]. simpl. by rewrite Ha, IH.
Qed.

Lemma py_strip_has_char c s : has_char c s = false -> has_char c (py_strip s) = false.
Proof. intros H. by apply rstrip_by_has_char, lstrip_by_has_char. Qed.

(** What [load_config] keeps of a comma-separated list. *)
Definition clean_item (d : string) : Prop :=
  d <> "" /\ py_strip d = d /\ has_char ","%char d = false.

Lemma strip_items_clean raw : Forall clean_item (strip_items raw).
Proof.
  unfold strip_items. pose proof (split_on_pieces ","%char raw) as Hp.
  induction (split_on ","%char raw) as [|w ws IH]; simpl; [done|].
  apply Forall_cons in Hp as [Hw Hws].
  destruct (String.eqb (py_strip w) "") eqn:E; simpl; [by apply IH|].
  constructor; [|by apply IH]. split; [by apply String.eqb_neq|].
  split; [apply py_strip_idem|]. by apply py_strip_has_char.
Qed.

Lemma strip_items_concat (ds : list string) :
  Forall clean_item ds -> strip_items (String.concat "," ds) = ds.
Proof.
  intros Hall. unfold strip_items. destruct ds as [|d ds'] eqn:Hds; [done|].
  rewrite <- Hds in *.
  rewrite (split_on_concat ","%char ds) by
    (subst; done || (eapply Forall_impl; [exact Hall|]; by intros x (_ & _ & ?))).
  clear d ds' Hds. induction ds as [|d ds IH]; simpl; [done|].
  apply Forall_cons in Hall as [(Hne & Hs & _) Hall].
  rewrite Hs. apply String.eqb_neq in Hne. rewrite Hne. simpl. by rewrite IH.
Qed.

Lemma rstrip_slash_suffix s :
  exists t, s = rstrip_slash s +:+ t /\ all_slashes t = true.
Proof.
  unfold rstrip_slash. induction s as [|c s (t & Ht & Hall)]; simpl.
  - by exists "".
  - destruct (String.eqb (rstrip_by (fun c0 => Ascii.eqb c0 slash) s) "") eqn:E1;
      destruct (Ascii.eqb c slash) eqn:E2; simpl.
    + exists (String c t). apply String.eqb_eq in E1. rewrite E1 in Ht. simpl in Ht.
      subst. simpl. by rewrite E2.
    + exists t. rewrite str_app_cons. by rewrite <- Ht.
    + exists t. rewrite str_app_cons. by rewrite <- Ht.
    + exists t. rewrite str_app_cons. by rewrite <- Ht.
Qed.

Lemma rstrip_slash_not_ends s : ends_with_slash (rstrip_slash s) = false.
Proof.
  unfold rstrip_slash. induction s as [|c s IH]; simpl; [done|].
  destruct (rstrip_by (fun c0 => Ascii.eqb c0 slash) s) as [|c' s'] eqn:E; simpl.
  - by destruct (Ascii.eqb c slash) eqn:Ec.
  - exact IH.
Qed.

Lemma env_nonempty_None (v : option string) :
  env_nonempty v = None <-> v = None \/ v = Some "".
Proof.
  destruct v as [s|]; simpl; [|tauto].
  destruct (String.eqb s "") eqn:E.
  - apply String.eqb_eq in E. subst. split; [by right|done].
  - apply String.eqb_neq in E. split; [done|]. intros [?|[= ?]]; done.
Qed.

Lemma env_nonempty_Some (v : option string) s :
  env_nonempty v = Some s <-> v = Some s /\ s <> "".
Proof.
  destruct v as [s'|]; simpl; [|split; [done|by intros []]].
  destruct (String.eqb s' "") eqn:E.
  - apply String.eqb_eq in E. subst. split; [done|]. by intros [[= <-] ?].
  - apply String.eqb_neq in E. split; [by intros [= <-]|]. by intros [[= <-] _].
Qed.

(** X4 *)
(** [load_config] exits exactly when ADB_PATH_WSL is unset or empty (with
    the ADB_PATH_WSL message) or, ADB_PATH_WSL being set, when
    BACKUP_ROOT_WSL is unset or empty (with the BACKUP_ROOT_WSL message). *)
Theorem load_config_exit (env : gmap string string) (msg : string) :
  load_config env = inr msg <->
  ((env !! "ADB_PATH_WSL" = None \/ env !! "ADB_PATH_WSL" = Some "") /\
     msg = adb_missing_msg) \/
  ((exists a, env !! "ADB_PATH_WSL" = Some a /\ a <> "") /\
   (env !! "BACKUP_ROOT_WSL" = None \/ env !! "BACKUP_ROOT_WSL" = Some "") /\
     msg = root_missing_msg).
Proof.
  unfold load_config.
  destruct (env_nonempty (env !! "ADB_PATH_WSL")) as [a|] eqn:Ha.
  - apply env_nonempty_Some in Ha as [Ha Hne].
    destruct (env_nonempty (env !! "BACKUP_ROOT_WSL")) as [r|] eqn:Hr.
    + apply env_nonempty_Some in Hr as [Hr Hrne]. split; [done|].
      intros [[[H|H] _]|(_ & [H|H] & _)]; congruence.
    + apply env_nonempty_None in Hr. split.
      * intros [= <-]. right. split; [by exists a|]. by split.
      * intros [[[H|H] _]|(_ & _ & ->)]; [congruence|congruence|done].
  - apply env_nonempty_None in Ha. split.
    + intros [= <-]. by left.
    + intros [[_ ->]|((a & Ha' & Hne) & _)]; [done|].
      destruct Ha as [H|H]; congruence.
Qed.

(** X5 *)
(** A configuration [load_config] returns has ADB_PATH and BACKUP_ROOT
    equal to the non-empty environment values; every media directory and
    every Download ignore pattern is non-empty, already stripped of
    surrounding whitespace and free of commas; PORTODB_DB_DIR is [None] or
    a non-empty stripped string. *)
Theorem load_config_ok (env : gmap string string) (cfg : config) :
  load_config env = inl cfg ->
  env !! "ADB_PATH_WSL" = Some (cfg_adb_path cfg) /\ cfg_adb_path cfg <> "" /\
  env !! "BACKUP_ROOT_WSL" = Some (cfg_backup_root cfg) /\ cfg_backup_root cfg <> "" /\
  Forall clean_item (cfg_phone_media_dirs cfg) /\
  Forall clean_item (cfg_download_ignore_patterns cfg) /\
  (forall p, cfg_portodb_db_dir cfg = Some p -> p <> "" /\ py_strip p = p).
Proof.
  unfold load_config.
  destruct (env_nonempty (env !! "ADB_PATH_WSL")) as [a|] eqn:Ha; [|done].
  destruct (env_nonempty (env !! "BACKUP_ROOT_WSL")) as [r|] eqn:Hr; [|done].
  apply env_nonempty_Some in Ha as [Ha Hane], Hr as [Hr Hrne].
  intros [= <-]. simpl. do 4 (split; [done|]).
  split; [apply strip_items_clean|]. split; [apply strip_items_clean|].
  intros p. destruct (String.eqb _ "") eqn:E; [done|].
  intros [= <-]. split; [by apply String.eqb_neq|]. apply py_strip_idem.
Qed.

(** X6 *)
(** Round trip of the comma-separated variables: when PHONE_MEDIA_DIRS
    (resp. DOWNLOAD_IGNORE_PATTERNS) is [",".join(ds)] for items that are
    non-empty, stripped and comma-free, [load_config] returns exactly [ds];
    when the variable is unset it returns []. *)
Theorem load_config_lists_roundtrip (env : gmap string string) (cfg : config)
    (ds : list string) :
  load_config env = inl cfg -> Forall clean_item ds ->
  (env !! "PHONE_MEDIA_DIRS" = Some (String.concat "," ds) ->
     cfg_phone_media_dirs cfg = ds) /\
  (env !! "PHONE_MEDIA_DIRS" = None -> cfg_phone_media_dirs cfg = []) /\
  (env !! "DOWNLOAD_IGNORE_PATTERNS" = Some (String.concat "," ds) ->
     cfg_download_ignore_patterns cfg = ds) /\
  (env !! "DOWNLOAD_IGNORE_PATTERNS" = None -> cfg_download_ignore_patterns cfg = []).
Proof.
  unfold load_config. intros Hcfg Hds.
  destruct (env_nonempty (env !! "ADB_PATH_WSL")); [|done].
  destruct (env_nonempty (env !! "BACKUP_ROOT_WSL")); [|done].
  injection Hcfg as <-. simpl.
  repeat split; intros ->; simpl; first [done | by apply strip_items_concat].
Qed.

(** X7 *)
(** PHONE_CAPCUT_DIR in the configuration is the environment value (or
    the default [/sdcard/Android/data/com.lemon.lvoverseas] when unset)
    with its trailing slashes, and only those, removed: it never ends in
    '/'. *)
Theorem load_config_capcut_dir (env : gmap string string) (cfg : config) :
  load_config env = inl cfg ->
  let v := default default_capcut_dir (env !! "PHONE_CAPCUT_DIR") in
  ends_with_slash (cfg_phone_capcut_dir cfg) = false /\
  exists t, v = cfg_phone_capcut_dir cfg +:+ t /\ all_slashes t = true.
Proof.
  unfold load_config. intros Hcfg.
  destruct (env_nonempty (env !! "ADB_PATH_WSL")); [|done].
  destruct (env_nonempty (env !! "BACKUP_ROOT_WSL")); [|done].
  injection Hcfg as <-. simpl. split; [apply rstrip_slash_not_ends|].
  apply rstrip_slash_suffix.
Qed.

(** X8 *)
(** restore_capcut.py reads the environment as backup_capcut.py does:
    both [load_config] exit on the same environments with the same
    message, and otherwise agree on ADB_PATH, BACKUP_ROOT,
    PHONE_CAPCUT_DIR and PHONE_MEDIA_DIRS. *)
Theorem restore_load_config_agrees (env : gmap string string) :
  match load_config env, Restore.load_config env with
  | inl c, inl rc =>
      Restore.cfg_adb_path rc = cfg_adb_path c /\
      Restore.cfg_backup_root rc = cfg_backup_root c /\
      Restore.cfg_phone_capcut_dir rc = cfg_phone_capcut_dir c /\
      Restore.cfg_phone_media_dirs rc = cfg_phone_media_dirs c
  | inr m, inr m' => m = m'
  | _, _ => False
  end.
Proof.
  unfold load_config, Restore.load_config.
  destruct (env_nonempty (env !! "ADB_PATH_WSL")); [|done].
  destruct (env_nonempty (env !! "BACKUP_ROOT_WSL")); done.
Qed.

(** * Properties of the media and restore path code *)

Lemma has_char_slash_sep a n : has_char slash (a +:+ "/" +:+ n) = true.
Proof. rewrite has_char_app. change ("/" +:+ n) with (String slash n). simpl. by rewrite orb_true_r. Qed.

Lemma basename_no_slash n : has_char slash n = false -> basename n = n.
Proof.
  destruct n as [|c r]; simpl; [done|]. intros H.
  apply orb_false_iff in H as [Hc Hr]. by rewrite Hr, Hc.
Qed.

Lemma basename_has_no_slash p : has_char slash (basename p) = false.
Proof.
  induction p as [|c r IH]; simpl; [done|].
  destruct (has_char slash r) eqn:Hr; [done|].
  destruct (Ascii.eqb c slash) eqn:Hc; [done|]. simpl. by rewrite Hc, Hr.
Qed.

Lemma basename_app a n : has_char slash n = false -> basename (a +:+ "/" +:+ n) = n.
Proof.
  intros Hn. induction a as [|c a IH].
  - change ("" +:+ "/" +:+ n) with (String slash n). simpl. by rewrite Hn.
  - rewrite str_app_cons. simpl. by rewrite has_char_slash_sep.
Qed.

Lemma before_last_slash_app a n :
  has_char slash n = false -> before_last_slash (a +:+ "/" +:+ n) = a.
Proof.
  intros Hn. induction a as [|c a IH].
  - change ("" +:+ "/" +:+ n) with (String slash n). simpl. by rewrite Hn.
  - rewrite str_app_cons. simpl. rewrite has_char_slash_sep. by rewrite IH.
Qed.

Lemma dir_head_app a n : has_char slash n = false -> dir_head (a +:+ "/" +:+ n) = a +:+ "/".
Proof.
  intros Hn. induction a as [|c a IH].
  - change ("" +:+ "/" +:+ n) with (String slash n). simpl. by rewrite Hn.
  - rewrite str_app_cons. simpl. rewrite has_char_slash_sep. by rewrite IH.
Qed.

Lemma split_last_slash s :
  has_char slash s = true -> before_last_slash s +:+ "/" +:+ basename s = s.
Proof.
  induction s as [|c r IH]; simpl; [done|]. intros H.
  destruct (has_char slash r) eqn:Hr.
  - rewrite str_app_cons. by rewrite IH.
  - rewrite orb_false_r in H. rewrite H.
    apply Ascii.eqb_eq in H. subst. reflexivity.
Qed.

Lemma rsplit_head_basename s :
  (has_char slash s = true -> rsplit_head s +:+ "/" +:+ basename s = s) /\
  (has_char slash s = false -> rsplit_head s = s /\ basename s = s).
Proof.
  unfold rsplit_head. split; intros H; rewrite H.
  - by apply split_last_slash.
  - split; [done|]. by apply basename_no_slash.
Qed.

Lemma str_length_app a b : String.length (a +:+ b) = (String.length a + String.length b)%nat.
Proof. induction a as [|x a IH]; [done|]. rewrite str_app_cons. simpl. by rewrite IH. Qed.

Lemma substring_app a t m :
  String.substring (String.length a) m (a +:+ t) = String.substring 0 m t.
Proof. induction a as [|x a IH]; [done|]. rewrite str_app_cons. simpl. apply IH. Qed.

Lemma substring_full t m : (String.length t <= m)%nat -> String.substring 0 m t = t.
Proof.
  revert m. induction t as [|x t IH]; intros m Hm; simpl.
  - by destruct m.
  - destruct m as [|m]; simpl in Hm; [lia|]. rewrite IH; [done|lia].
Qed.

Lemma all_slashes_app x y : all_slashes (x +:+ y) = all_slashes x && all_slashes y.
Proof. induction x as [|c x IH]; [done|]. rewrite str_app_cons. simpl. by rewrite IH, andb_assoc. Qed.

Lemma all_slashes_ends s : s <> "" -> all_slashes s = true -> ends_with_slash s = true.
Proof.
  induction s as [|c r IH]; [done|]. intros _ H. simpl in H.
  apply andb_true_iff in H as [Hc Hr]. destruct r as [|c' r'].
  - exact Hc.
  - change (ends_with_slash (String c (String c' r'))) with (ends_with_slash (String c' r')).
    by apply IH.
Qed.

Lemma rstrip_by_app p x y :
  rstrip_by p (x +:+ y) =
  if String.eqb (rstrip_by p y) "" then rstrip_by p x else x +:+ rstrip_by p y.
Proof.
  induction x as [|c x IH].
  - rewrite str_app_nil. destruct (String.eqb (rstrip_by p y) "") eqn:E; [|done].
    by apply String.eqb_eq in E.
  - rewrite str_app_cons. simpl. rewrite IH.
    destruct (String.eqb (rstrip_by p y) "") eqn:E; [done|].
    assert (Hne : String.eqb (x +:+ rstrip_by p y) "" = false).
    { destruct x; [exact E|done]. }
    by rewrite Hne.
Qed.

Lemma rstrip_slash_id s : ends_with_slash s = false -> rstrip_slash s = s.
Proof.
  unfold rstrip_slash. set (p := fun c0 => Ascii.eqb c0 slash).
  induction s as [|c r IH]; [done|]. intros H.
  destruct r as [|c' r'].
  - simpl in *. unfold p, slash. by rewrite H.
  - change (ends_with_slash (String c (String c' r'))) with (ends_with_slash (String c' r')) in H.
    transitivity (if String.eqb (rstrip_by p (String c' r')) "" && p c then ""
                  else String c (rstrip_by p (String c' r'))); [reflexivity|].
    rewrite (IH H). reflexivity.
Qed.

Lemma dirname_app sub n :
  sub <> "" -> ends_with_slash sub = false -> has_char slash n = false ->
  dirname (sub +:+ "/" +:+ n) = sub.
Proof.
  intros Hne Hend Hn. unfold dirname. rewrite dir_head_app by done.
  assert (E1 : String.eqb (sub +:+ "/") "" = false) by (destruct sub; done).
  assert (E2 : all_slashes (sub +:+ "/") = false).
  { rewrite all_slashes_app. destruct (all_slashes sub) eqn:Ha; [|done].
    apply all_slashes_ends in Ha; [congruence|done]. }
  rewrite E1, E2. simpl. unfold rstrip_slash. rewrite rstrip_by_app. simpl.
  by apply rstrip_slash_id.
Qed.

Lemma dirname_no_slash n : has_char slash n = false -> dirname n = "".
Proof.
  intros Hn. unfold dirname.
  assert (Hd : dir_head n = "").
  { induction n as [|c r IH]; [done|]. simpl in *.
    apply orb_false_iff in Hn as [Hc Hr]. by rewrite Hr, Hc. }
  by rewrite Hd.
Qed.

(** X9 *)
(** The Download branch of [backup_media_dirs] splits the listed files
    into [files_to_copy] (those [should_ignore_download_file] rejects) and
    [ignored_files] (exactly those it accepts), both in listing order. *)
Theorem download_selection_partition (fnmatch : string -> string -> bool)
    (patterns all_files : list string) :
  download_selection fnmatch patterns all_files =
  (List.filter (fun f => negb (should_ignore_download_file fnmatch f patterns)) all_files,
   List.filter (fun f => should_ignore_download_file fnmatch f patterns) all_files).
Proof.
  unfold download_selection. f_equal. apply filter_ext_in. intros f Hf.
  destruct (should_ignore_download_file fnmatch f patterns) eqn:E.
  - rewrite bool_decide_false; [done|]. rewrite list_elem_of_In, filter_In, E. by intros [_ ?].
  - rewrite bool_decide_true; [done|]. rewrite list_elem_of_In, filter_In, E. by split.
Qed.

(** X10 *)
(** [should_ignore_download_file] matches the patterns against the file
    name only: a file [dir/name] is ignored exactly when some pattern
    matches [name], whatever the directories above it. *)
Theorem should_ignore_matches_file_name (fnmatch : string -> string -> bool)
    (patterns : list string) (dir name : string) :
  has_char slash name = false ->
  should_ignore_download_file fnmatch (dir +:+ "/" +:+ name) patterns =
  existsb (fun pat => fnmatch name pat) patterns.
Proof. intros Hn. unfold should_ignore_download_file. by rewrite basename_app. Qed.

(** X11 *)
(** In the Download branch, a file [phone_dir/sub/name] is pulled into
    [os.path.join(media_parent, "Download", sub)] under its own name,
    keeping its subdirectory; a file directly under [phone_dir] or a
    listed path outside [phone_dir] goes to
    [os.path.join(media_parent, "Download", "")]. *)
Theorem download_target_keeps_subdir (media_parent phone_dir sub name f : string) :
  has_char slash name = false ->
  (sub <> "" -> ends_with_slash sub = false ->
     download_target media_parent phone_dir (phone_dir +:+ "/" +:+ sub +:+ "/" +:+ name)
     = (path_join (path_join media_parent "Download") sub, name)) /\
  download_target media_parent phone_dir (phone_dir +:+ "/" +:+ name)
    = (path_join (path_join media_parent "Download") "", name) /\
  (String.prefix (phone_dir +:+ "/") f = false ->
     download_target media_parent phone_dir f
     = (path_join (path_join media_parent "Download") "", basename f)).
Proof.
  intros Hn.
  assert (Hrel : forall t, download_target media_parent phone_dir (phone_dir +:+ "/" +:+ t)
                  = (path_join (path_join media_parent "Download") (dirname t), basename t)).
  { intros t. unfold download_target.
    rewrite <- (str_app_assoc phone_dir "/" t), prefix_app.
    assert (Hl : (String.length phone_dir + 1)%nat = String.length (phone_dir +:+ "/"))
      by (rewrite str_length_app; done).
    rewrite Hl, substring_app, substring_full; [done|].
    rewrite !str_length_app. lia. }
  split; [|split].
  - intros Hne Hend. rewrite Hrel. by rewrite dirname_app, basename_app.
  - rewrite Hrel. by rewrite dirname_no_slash, basename_no_slash.
  - intros Hp. unfold download_target. rewrite Hp.
    rewrite dirname_no_slash by apply basename_has_no_slash.
    by rewrite (basename_no_slash (basename f)) by apply basename_has_no_slash.
Qed.

(** X12 *)
(** [find_backup_runs] returns no run and a warning when the backup root
    is not a directory; otherwise, without printing, the directories
    [os.walk] visits that have a [capcut_app] subdirectory, each once, in
    ascending string order. *)
Theorem find_backup_runs_sorted_set (is_dir : bool) (backup_root : string)
    (tree : list entry) (runs out : list string) :
  Restore.find_backup_runs is_dir backup_root tree = (runs, out) ->
  (is_dir = false -> runs = [] /\ out = [Restore.no_backup_root_msg backup_root]) /\
  StronglySorted String.le runs /\ NoDup runs /\
  (forall d, d ∈ runs <->
     is_dir = true /\ exists subdirs,
       In (d, subdirs) (Restore.walk_dirs backup_root (EDir "" tree)) /\
       "capcut_app" ∈ subdirs).
Proof.
  unfold Restore.find_backup_runs. generalize (Restore.walk_dirs backup_root (EDir "" tree)) as W. intros W. destruct is_dir; cbv beta iota delta [negb].
  - intros [= <- <-]. split; [done|].
    split; [apply StronglySorted_merge_sort; apply _|].
    split; [rewrite merge_sort_Permutation; apply NoDup_remove_dups|].
    intros d. rewrite merge_sort_Permutation, elem_of_remove_dups, list_elem_of_In, in_map_iff.
    split.
    + intros [[d' ds] [<- Hin]]. apply filter_In in Hin as [Hin Hc]. simpl in Hc.
      apply bool_decide_eq_true in Hc. split; [done|]. by exists ds.
    + intros [_ [ds [Hin Hc]]]. exists (d, ds). split; [done|].
      apply filter_In. split; [done|]. simpl. by apply bool_decide_eq_true.
  - intros [= <- <-]. split; [done|]. split; [constructor|]. split; [constructor|].
    intros d. split; [intros Hd; by apply elem_of_nil in Hd | by intros [? _]].
Qed.

Lemma choose_loop_not_exit py_int run_dirs inputs msg :
  (Restore.choose_loop py_int run_dirs inputs).1 <> Restore.Exit msg.
Proof.
  induction inputs as [|choice rest IH]; simpl; [done|].
  destruct (Restore.choose_loop py_int run_dirs rest) as [r out] eqn:E. simpl in IH.
  destruct (py_int choice) as [idx|]; [|done].
  destruct (_ && _); [|done]. by destruct (run_dirs !! Z.to_nat idx).
Qed.

Lemma choose_loop_chosen py_int run_dirs inputs d out :
  Restore.choose_loop py_int run_dirs inputs = (Restore.Chosen d, out) ->
  exists pre choice post i,
    inputs = (pre ++ choice :: post)%list /\ py_int choice = Some i /\
    (0 <= i < Z.of_nat (length run_dirs))%Z /\ run_dirs !! Z.to_nat i = Some d /\
    Forall (fun s => forall j, py_int s = Some j -> ~ (0 <= j < Z.of_nat (length run_dirs))%Z) pre.
Proof.
  revert out. induction inputs as [|choice rest IH]; intros out; simpl; [done|].
  destruct (Restore.choose_loop py_int run_dirs rest) as [r out'] eqn:E.
  assert (Hretry : (r, "Invalid choice. Try again." :: out') = (Restore.Chosen d, out) ->
            (forall j, py_int choice = Some j -> ~ (0 <= j < Z.of_nat (length run_dirs))%Z) ->
            exists pre choice' post i,
              choice :: rest = (pre ++ choice' :: post)%list /\ py_int choice' = Some i /\
              (0 <= i < Z.of_nat (length run_dirs))%Z /\ run_dirs !! Z.to_nat i = Some d /\
              Forall (fun s => forall j, py_int s = Some j ->
                                ~ (0 <= j < Z.of_nat (length run_dirs))%Z) pre).
  { intros [= -> <-] Hbad.
    destruct (IH _ eq_refl) as (pre & c & post & i & -> & Hc & Hi & Hd & Hpre).
    exists (choice :: pre), c, post, i. do 4 (split; [done|]). by constructor. }
  destruct (py_int choice) as [idx|] eqn:Hc; [|intros H; apply Hretry; [exact H|intros j Hj; discriminate]].
  destruct ((0 <=? idx)%Z && (idx <? Z.of_nat (length run_dirs))%Z) eqn:Hr.
  - apply andb_true_iff in Hr as [H1 H2]. apply Z.leb_le in H1. apply Z.ltb_lt in H2.
    destruct (run_dirs !! Z.to_nat idx) as [d'|] eqn:Hd.
    + intros [= -> <-]. exists [], choice, rest, idx. repeat split; try done; lia.
    + exfalso. assert (Hs : is_Some (run_dirs !! Z.to_nat idx)) by (apply lookup_lt_is_Some; lia).
      destruct Hs as [? Hs]. congruence.
  - intros H. apply Hretry; [exact H|]. intros j [= <-] Hj.
    apply andb_false_iff in Hr as [Hr|Hr]; [apply Z.leb_gt in Hr|apply Z.ltb_ge in Hr]; lia.
Qed.

(** X13 *)
(** [choose_run_dir] exits with "[ERROR] No backup runs found with a
    capcut_app folder." when there is no run, and never exits otherwise;
    a run it returns is [run_dirs[i]] for the first typed line that [int()]
    parses to an index [0 <= i < len(run_dirs)], every earlier line having
    been rejected. *)
Theorem choose_run_dir_spec (py_int : string -> option Z) (run_dirs inputs : list string) :
  (run_dirs = [] ->
     Restore.choose_run_dir py_int run_dirs inputs = (Restore.Exit Restore.no_runs_msg, [])) /\
  (run_dirs <> [] -> forall msg, (Restore.choose_run_dir py_int run_dirs inputs).1 <> Restore.Exit msg) /\
  (forall d out, Restore.choose_run_dir py_int run_dirs inputs = (Restore.Chosen d, out) ->
     exists pre choice post i,
       inputs = (pre ++ choice :: post)%list /\ py_int choice = Some i /\
       (0 <= i < Z.of_nat (length run_dirs))%Z /\ run_dirs !! Z.to_nat i = Some d /\
       Forall (fun s => forall j, py_int s = Some j ->
                         ~ (0 <= j < Z.of_nat (length run_dirs))%Z) pre).
Proof.
  unfold Restore.choose_run_dir. split; [by intros ->|]. split.
  - intros Hne msg. destruct run_dirs as [|r rs]; [done|].
    pose proof (choose_loop_not_exit py_int (r :: rs) inputs msg) as H.
    destruct (Restore.choose_loop py_int (r :: rs) inputs). exact H.
  - intros d out. destruct run_dirs as [|r rs]; [done|].
    destruct (Restore.choose_loop py_int (r :: rs) inputs) as [res o] eqn:E.
    intros [= -> _]. by eapply choose_loop_chosen.
Qed.

(** X14 *)
(** When [restore_capcut_data] runs [adb push], it pushes
    [run_dir/capcut_app/<basename(PHONE_CAPCUT_DIR)>] (converted to a
    Windows path) into [PHONE_CAPCUT_DIR.rsplit("/", 1)[0]]; for a
    PHONE_CAPCUT_DIR that contains '/', that parent followed by the pushed
    name is PHONE_CAPCUT_DIR itself, and for one without '/', the target is
    PHONE_CAPCUT_DIR itself. *)
Theorem restore_capcut_push_target (py_upper : string -> string) (is_dir : string -> bool)
    (adb_path phone_capcut_dir run_dir : string) (cmd out : list string) :
  Restore.restore_capcut_data py_upper is_dir adb_path phone_capcut_dir run_dir
    = (Some cmd, out) ->
  exists win,
    Restore.wsl_to_win_path py_upper
      (path_join (path_join run_dir "capcut_app") (basename phone_capcut_dir)) = inl win /\
    cmd = [adb_path; "push"; win; rsplit_head phone_capcut_dir] /\
    (has_char slash phone_capcut_dir = true ->
       rsplit_head phone_capcut_dir +:+ "/" +:+ basename phone_capcut_dir = phone_capcut_dir) /\
    (has_char slash phone_capcut_dir = false ->
       rsplit_head phone_capcut_dir = phone_capcut_dir).
Proof.
  unfold Restore.restore_capcut_data.
  destruct (is_dir _); simpl; [|done].
  destruct (Restore.wsl_to_win_path _) as [win|e] eqn:Hw; [|done].
  intros [= <- _]. exists win. split; [done|]. split; [done|].
  pose proof (rsplit_head_basename phone_capcut_dir) as [H1 H2].
  split; [done|]. intros H. by apply H2.
Qed.

(** X15 *)
(** [restore_media_dirs] pushes nothing when the run has no [media]
    folder; otherwise it runs at most one [adb push] per configured media
    directory [d], in order: [run_dir/media/<basename(d')>] (an existing
    directory, converted to a Windows path) into [d'.rsplit("/", 1)[0]],
    where [d'] is [d] without trailing slashes; when [d'] contains '/',
    that parent followed by the pushed name is [d']. *)
Theorem restore_media_push_targets (py_upper : string -> string) (is_dir : string -> bool)
    (adb_path : string) (media_dirs : list string) (run_dir : string) :
  let media_parent := path_join run_dir "media" in
  let res := Restore.restore_media_dirs py_upper is_dir adb_path media_dirs run_dir in
  (is_dir media_parent = false ->
     res = ([], ["[INFO] No 'media' folder in this run; skipping media restore."])) /\
  (length res.1 <= length media_dirs)%nat /\
  (forall cmd, In cmd res.1 ->
     exists phone_dir win, In phone_dir media_dirs /\
       is_dir (path_join media_parent (basename (rstrip_slash phone_dir))) = true /\
       Restore.wsl_to_win_path py_upper
         (path_join media_parent (basename (rstrip_slash phone_dir))) = inl win /\
       cmd = [adb_path; "push"; win; rsplit_head (rstrip_slash phone_dir)] /\
       (has_char slash (rstrip_slash phone_dir) = true ->
          rsplit_head (rstrip_slash phone_dir) +:+ "/" +:+ basename (rstrip_slash phone_dir)
          = rstrip_slash phone_dir)).
Proof.
  intros media_parent res. unfold res, Restore.restore_media_dirs. fold media_parent.
  destruct (is_dir media_parent) eqn:Hm; simpl; [|split; [done|]; split; [simpl; lia|done]].
  split; [done|].
  induction media_dirs as [|pd rest [IHlen IHin]]; simpl; [split; [lia|done]|].
  set (acc := foldr _ ([], []) rest) in *.
  destruct (is_dir (path_join media_parent (basename (rstrip_slash pd)))) eqn:Hd; simpl.
  - destruct (Restore.wsl_to_win_path _) as [win|e] eqn:Hw; simpl.
    + split; [lia|]. intros cmd [<-|Hin].
      * exists pd, win. repeat split; try done; [by left|].
        apply rsplit_head_basename.
      * destruct (IHin cmd Hin) as (pd' & win' & Hpd & Hrest). exists pd', win'.
        split; [by right|done].
    + split; [lia|]. intros cmd Hin.
      destruct (IHin cmd Hin) as (pd' & win' & Hpd & Hrest). exists pd', win'.
      split; [by right|done].
  - split; [lia|]. intros cmd Hin.
    destruct (IHin cmd Hin) as (pd' & win' & Hpd & Hrest). exists pd', win'.
    split; [by right|done].
Qed.

(** * Concrete instances *)

(** A stand-in digest for concrete runs: any function of the bytes will do
    for the properties below. *)
Definition demo_digest (bs : list Byte.byte) : string :=
  "sha-of-" +:+ pretty (N.of_nat (length bs)).

(** A JSON document that either decodes to a value or makes [json.load]
    raise with a message. *)
Definition demo_doc : Type := jvalue + string.
Definition demo_dump (v : jvalue) : demo_doc := inl v.
Definition demo_load (d : demo_doc) : jvalue + string := d.
Definition demo_str (v : jvalue) : string :=
  match v with
  | JNull => "None"
  | JBool true => "True"
  | JBool false => "False"
  | JStr s => s
  | _ => "<value>"
  end.

Definition demo_world : world demo_doc := mkWorld demo_doc ∅ ∅.

Definition cex_tree_unreadable : list entry :=
  [EFile "a.db" None; EFile "b.db" (Some [Byte.x01])].

Definition demo_tree_nested : list entry :=
  [EFile "z.txt" (Some []); EDir "a" [EFile "b.txt" (Some [])]].

Example walk_nested : (walk demo_tree_nested).*1 = ["z.txt"; "a/b.txt"].
Proof. reflexivity. Qed.

Example classify_second_run :
  classify "/run2/portodb" [("a.txt", "h1")] {[ "a.txt" := "h1" ]}
  = (["/run2/portodb/a.txt"], {[ "a.txt" := "h1" ]}).
Proof. vm_compute. reflexivity. Qed.

Example classify_changed :
  classify "/run2/portodb" [("a.txt", "h2")] {[ "a.txt" := "h1" ]}
  = ([], {[ "a.txt" := "h2" ]}).
Proof. vm_compute. reflexivity. Qed.

(** * Witnesses *)

Lemma classify_new_log_witness :
  NoDup ([("a.txt", "h2"); ("b.txt", "h3")] : list (string * string)).*1 /\
  (classify "/run2/portodb" [("a.txt", "h2"); ("b.txt", "h3")] {[ "c.txt" := "h0" ]}).2
    !! "a.txt" = Some "h2".
Proof.
  assert (Hnd : NoDup ([("a.txt", "h2"); ("b.txt", "h3")] : list (string * string)).*1)
    by (apply NoDup_cons; split; [set_solver | apply NoDup_singleton]).
  split; [exact Hnd|].
  apply (proj1 (classify_new_log "/run2/portodb" _ {[ "c.txt" := "h0" ]} Hnd)).
  set_solver.
Defined.

Lemma unreadable_file_aborts_dedupe_witness :
  In ("a.db", None) (walk cex_tree_unreadable) /\ "a.db" <> sha_file_name /\
  exists p,
    process_portodb_hashes_and_dedupe demo_digest demo_doc demo_dump demo_load demo_str
      true "/run/portodb" "/backup" "/home" "20260101_0000"
      cex_tree_unreadable demo_world = Err (IOError p).
Proof.
  assert (Hin : In ("a.db", None) (walk cex_tree_unreadable)) by (simpl; auto).
  assert (Hne : "a.db" <> sha_file_name) by discriminate.
  split; [exact Hin|]. split; [exact Hne|].
  destruct (unreadable_file_aborts_dedupe demo_digest demo_doc demo_dump demo_load
              demo_str "/run/portodb" "/backup" "/home" "20260101_0000"
              cex_tree_unreadable demo_world "a.db" Hin Hne) as [p [_ Hp]].
  exists p. exact Hp.
Defined.

Lemma manifest_in_walk_order_witness :
  write_sha256_file demo_digest "/run/portodb" demo_tree_nested ∅ =
    Ok ([("z.txt", "sha-of-0"); ("a/b.txt", "sha-of-0")],
        write_text_trace ∅ "/run/portodb/SHA256.txt"
          ("sha-of-0  z.txt" +:+ newline +:+ "sha-of-0  a/b.txt" +:+ newline),
        ["[OK] SHA256.txt written with 2 entries at /run/portodb/SHA256.txt"]) /\
  ([("z.txt", "sha-of-0"); ("a/b.txt", "sha-of-0")] : list (string * string)).*1 =
    List.filter (fun r => negb (String.eqb r sha_file_name)) (walk demo_tree_nested).*1.
Proof.
  assert (H : write_sha256_file demo_digest "/run/portodb" demo_tree_nested ∅ =
    Ok ([("z.txt", "sha-of-0"); ("a/b.txt", "sha-of-0")],
        write_text_trace ∅ "/run/portodb/SHA256.txt"
          ("sha-of-0  z.txt" +:+ newline +:+ "sha-of-0  a/b.txt" +:+ newline),
        ["[OK] SHA256.txt written with 2 entries at /run/portodb/SHA256.txt"]))
    by (vm_compute; reflexivity).
  split; [exact H|].
  exact (proj1 (manifest_in_walk_order demo_digest _ _ _ _ _ _ H)).
Defined.

Lemma load_absent_or_unparseable_witness :
  (∅ : gmap string demo_doc) !! "/backup/portodb_sha_log.json" = None /\
  load_portodb_log demo_doc demo_load demo_str ∅ "/backup/portodb_sha_log.json" = (∅, []) /\
  ({[ "/backup/portodb_sha_log.json" := inr "Expecting value: line 1 column 1 (char 0)" ]}
     : gmap string demo_doc) !! "/backup/portodb_sha_log.json"
    = Some (inr "Expecting value: line 1 column 1 (char 0)") /\
  load_portodb_log demo_doc demo_load demo_str
    {[ "/backup/portodb_sha_log.json" := inr "Expecting value: line 1 column 1 (char 0)" ]}
    "/backup/portodb_sha_log.json"
  = (∅, ["[WARN] Could not read existing PortoDB SHA log: Expecting value: line 1 column 1 (char 0)"]).
Proof.
  assert (H1 : (∅ : gmap string demo_doc) !! "/backup/portodb_sha_log.json" = None)
    by reflexivity.
  assert (H2 : ({[ "/backup/portodb_sha_log.json" := inr "Expecting value: line 1 column 1 (char 0)" ]}
     : gmap string demo_doc) !! "/backup/portodb_sha_log.json"
    = Some (inr "Expecting value: line 1 column 1 (char 0)")) by (vm_compute; reflexivity).
  split; [exact H1|]. split.
  { exact (proj1 (load_absent_or_unparseable demo_doc demo_load demo_str ∅ _) H1). }
  split; [exact H2|].
  exact (proj2 (load_absent_or_unparseable demo_doc demo_load demo_str _ _) _ _ H2 eq_refl).
Defined.

Lemma save_then_load_witness :
  (forall v, demo_load (demo_dump v) = inl v) /\
  (forall s, demo_str (JStr s) = s) /\
  load_portodb_log demo_doc demo_load demo_str
    (save_portodb_log demo_doc demo_dump ∅ "/backup/portodb_sha_log.json"
       {[ "PortoDB/a.sqlite" := "h1"; "PortoDB/b.sqlite" := "h2" ]}).1
    "/backup/portodb_sha_log.json"
  = ({[ "PortoDB/a.sqlite" := "h1"; "PortoDB/b.sqlite" := "h2" ]}, []).
Proof.
  assert (Hj : forall v, demo_load (demo_dump v) = inl v) by reflexivity.
  assert (Hs : forall s, demo_str (JStr s) = s) by reflexivity.
  split; [exact Hj|]. split; [exact Hs|].
  exact (save_then_load demo_doc demo_dump demo_load demo_str ∅ _ _ Hj Hs).
Defined.

Lemma load_non_object_or_coerced_witness :
  ({[ "/backup/portodb_sha_log.json" := inl (JList [JStr "x"]) ]} : gmap string demo_doc)
    !! "/backup/portodb_sha_log.json" = Some (inl (JList [JStr "x"])) /\
  demo_load (inl (JList [JStr "x"])) = inl (JList [JStr "x"]) /\
  load_portodb_log demo_doc demo_load demo_str
    {[ "/backup/portodb_sha_log.json" := inl (JList [JStr "x"]) ]}
    "/backup/portodb_sha_log.json" = (∅, []).
Proof.
  assert (Hd : ({[ "/backup/portodb_sha_log.json" := inl (JList [JStr "x"]) ]}
                 : gmap string demo_doc) !! "/backup/portodb_sha_log.json"
               = Some (inl (JList [JStr "x"]))) by (vm_compute; reflexivity).
  assert (Hv : demo_load (inl (JList [JStr "x"])) = inl (JList [JStr "x"])) by reflexivity.
  split; [exact Hd|]. split; [exact Hv|].
  apply (proj1 (load_non_object_or_coerced demo_doc demo_load demo_str _ _ _ _ Hd Hv)).
  discriminate.
Defined.

(** * Witnesses of the further properties *)

Definition demo_env : gmap string string :=
  <["ADB_PATH_WSL" := "/mnt/c/platform-tools/adb.exe"]>
  (<["BACKUP_ROOT_WSL" := "/mnt/c/Users/me/CapCutBackups"]>
  (<["PHONE_MEDIA_DIRS" := "/sdcard/DCIM/Camera,/sdcard/Pictures"]>
  (<["PHONE_CAPCUT_DIR" := "/sdcard/Android/data/com.lemon.lvoverseas//"]> ∅))).

Definition demo_config : config :=
  mkConfig "/mnt/c/platform-tools/adb.exe" "/mnt/c/Users/me/CapCutBackups"
    "/sdcard/Android/data/com.lemon.lvoverseas" ["/sdcard/DCIM/Camera"; "/sdcard/Pictures"]
    None [].

Definition demo_backup_tree : list entry :=
  [EDir "2026" [EDir "01" [EDir "17" [EDir "0930" [EDir "capcut_app" []; EDir "media" []];
                                      EDir "0815" [EDir "capcut_app" []]]]]].

Definition demo_portodb_tree : list entry :=
  [EDir "PortoDB" [EFile "main.sqlite" (Some [Byte.x01]); EFile "log.sqlite" (Some [])]].



Lemma wsl_to_win_path_shape_witness :
  wsl_to_win_path ascii_str_upper "/mnt/c/Users/me/CapCutBackups/"
    = inl "C:\Users\me\CapCutBackups" /\
  has_char slash "C:\Users\me\CapCutBackups" = false.
Proof.
  assert (H : wsl_to_win_path ascii_str_upper "/mnt/c/Users/me/CapCutBackups/"
                = inl "C:\Users\me\CapCutBackups")
    by (vm_compute; reflexivity).
  split; [exact H|].
  exact (proj1 (wsl_to_win_path_shape _ _ _ ascii_str_upper_no_slash H)).
Defined.

Lemma wsl_to_win_path_mount_witness :
  plain_component "c" = true /\ ["Users"; "me"] <> [] /\
  wsl_to_win_path ascii_str_upper ("/mnt/" +:+ "c" +:+ "/" +:+ String.concat "/" ["Users"; "me"])
  = inl (ascii_str_upper "c" +:+ ":\" +:+ String.concat "\" ["Users"; "me"]).
Proof.
  assert (Hd : plain_component "c" = true) by reflexivity.
  assert (Hne : ["Users"; "me"] <> []) by discriminate.
  assert (Hall : Forall (fun w => plain_component w = true) ["Users"; "me"])
    by (repeat constructor).
  split; [exact Hd|]. split; [exact Hne|].
  exact (wsl_to_win_path_mount ascii_str_upper "c" _ Hd Hne Hall).
Defined.

Lemma wsl_to_win_path_bare_mount_witness :
  plain_component "d" = true /\
  wsl_to_win_path ascii_str_upper ("/mnt/" +:+ "d") = inr ("Unexpected WSL path format: /mnt/" +:+ "d").
Proof.
  assert (Hd : plain_component "d" = true) by reflexivity.
  split; [exact Hd|]. exact (wsl_to_win_path_bare_mount ascii_str_upper "d" Hd).
Defined.

Lemma load_config_ok_witness :
  load_config demo_env = inl demo_config /\
  Forall clean_item (cfg_phone_media_dirs demo_config).
Proof.
  assert (H : load_config demo_env = inl demo_config) by (vm_compute; reflexivity).
  split; [exact H|]. exact (proj1 (proj2 (proj2 (proj2 (proj2 (load_config_ok _ _ H)))))).
Defined.

Lemma load_config_lists_roundtrip_witness :
  load_config demo_env = inl demo_config /\
  Forall clean_item ["/sdcard/DCIM/Camera"; "/sdcard/Pictures"] /\
  cfg_phone_media_dirs demo_config = ["/sdcard/DCIM/Camera"; "/sdcard/Pictures"].
Proof.
  assert (H : load_config demo_env = inl demo_config) by (vm_compute; reflexivity).
  assert (Hds : Forall clean_item ["/sdcard/DCIM/Camera"; "/sdcard/Pictures"]).
  { repeat constructor; discriminate. }
  split; [exact H|]. split; [exact Hds|].
  apply (proj1 (load_config_lists_roundtrip _ _ _ H Hds)). vm_compute. reflexivity.
Defined.

Lemma load_config_capcut_dir_witness :
  load_config demo_env = inl demo_config /\
  ends_with_slash (cfg_phone_capcut_dir demo_config) = false.
Proof.
  assert (H : load_config demo_env = inl demo_config) by (vm_compute; reflexivity).
  split; [exact H|]. exact (proj1 (load_config_capcut_dir _ _ H)).
Defined.

Lemma should_ignore_matches_file_name_witness :
  has_char slash "clip.tmp" = false /\
  should_ignore_download_file (fun name pat => String.eqb name pat)
    ("/sdcard/Download/tmp.d" +:+ "/" +:+ "clip.tmp") ["clip.tmp"] = true.
Proof.
  assert (H : has_char slash "clip.tmp" = false) by reflexivity.
  split; [exact H|].
  rewrite (should_ignore_matches_file_name _ _ _ _ H). reflexivity.
Defined.

Lemma download_target_keeps_subdir_witness :
  has_char slash "f.jpg" = false /\
  download_target "/mnt/c/run/media" "/sdcard/Download"
    ("/sdcard/Download" +:+ "/" +:+ "trips/2025" +:+ "/" +:+ "f.jpg")
  = (path_join (path_join "/mnt/c/run/media" "Download") "trips/2025", "f.jpg").
Proof.
  assert (H : has_char slash "f.jpg" = false) by reflexivity.
  split; [exact H|].
  apply (proj1 (download_target_keeps_subdir "/mnt/c/run/media" "/sdcard/Download"
                  "trips/2025" "f.jpg" "" H)); [discriminate|reflexivity].
Defined.

Lemma find_backup_runs_sorted_set_witness :
  Restore.find_backup_runs true "/mnt/c/Backups" demo_backup_tree
    = (["/mnt/c/Backups/2026/01/17/0815"; "/mnt/c/Backups/2026/01/17/0930"], []) /\
  NoDup ["/mnt/c/Backups/2026/01/17/0815"; "/mnt/c/Backups/2026/01/17/0930"].
Proof.
  assert (H : Restore.find_backup_runs true "/mnt/c/Backups" demo_backup_tree
    = (["/mnt/c/Backups/2026/01/17/0815"; "/mnt/c/Backups/2026/01/17/0930"], []))
    by (vm_compute; reflexivity).
  split; [exact H|].
  exact (proj1 (proj2 (proj2 (find_backup_runs_sorted_set _ _ _ _ _ H)))).
Defined.

Lemma restore_capcut_push_target_witness :
  Restore.restore_capcut_data ascii_str_upper (fun _ => true) "adb" default_capcut_dir
    "/mnt/c/Backups/2026/01/17/0930"
  = (Some ["adb"; "push"; "C:\Backups\2026\01\17\0930\capcut_app\com.lemon.lvoverseas";
           "/sdcard/Android/data"],
     ["[STEP] Restoring CapCut data to /sdcard/Android/data ..."]) /\
  "/sdcard/Android/data" +:+ "/" +:+ basename default_capcut_dir = default_capcut_dir.
Proof.
  assert (H : Restore.restore_capcut_data ascii_str_upper (fun _ => true) "adb" default_capcut_dir
    "/mnt/c/Backups/2026/01/17/0930"
  = (Some ["adb"; "push"; "C:\Backups\2026\01\17\0930\capcut_app\com.lemon.lvoverseas";
           "/sdcard/Android/data"],
     ["[STEP] Restoring CapCut data to /sdcard/Android/data ..."])) by (vm_compute; reflexivity).
  split; [exact H|].
  destruct (restore_capcut_push_target _ _ _ _ _ _ _ H) as (win & _ & _ & Hsl & _).
  apply Hsl. reflexivity.
Defined.

Lemma process_updates_log_witness :
  (forall v, demo_load (demo_dump v) = inl v) /\
  (forall s, demo_str (JStr s) = s) /\
  hash_loop demo_digest "/mnt/c/run/portodb" (walk demo_portodb_tree)
    = Ok [("PortoDB/main.sqlite", "sha-of-1"); ("PortoDB/log.sqlite", "sha-of-0")] /\
  exists w' out,
    process_portodb_hashes_and_dedupe demo_digest demo_doc demo_dump demo_load demo_str
      true "/mnt/c/run/portodb" "/mnt/c/Backups" "/home/me" "20260117_0930"
      demo_portodb_tree demo_world = Ok (w', out) /\
    load_portodb_log demo_doc demo_load demo_str (jsons demo_doc w')
      (path_join "/mnt/c/Backups" log_file_name)
    = ({[ "PortoDB/main.sqlite" := "sha-of-1"; "PortoDB/log.sqlite" := "sha-of-0" ]}, []).
Proof.
  assert (Hj : forall v, demo_load (demo_dump v) = inl v) by reflexivity.
  assert (Hs : forall s, demo_str (JStr s) = s) by reflexivity.
  assert (Hsm : hash_loop demo_digest "/mnt/c/run/portodb" (walk demo_portodb_tree)
    = Ok [("PortoDB/main.sqlite", "sha-of-1"); ("PortoDB/log.sqlite", "sha-of-0")])
    by (vm_compute; reflexivity).
  split; [exact Hj|]. split; [exact Hs|]. split; [exact Hsm|].
  destruct (process_updates_log demo_digest demo_doc demo_dump demo_load demo_str
              "/mnt/c/run/portodb" "/mnt/c/Backups" "/home/me" "20260117_0930"
              demo_portodb_tree demo_world _ Hj Hs Hsm) as (w' & out & Hrun & Hlog & _).
  exists w', out. split; [exact Hrun|]. rewrite Hlog. vm_compute. reflexivity.
Defined.


Lemma unchanged_paths_under_root_witness :
  write_sha256_file demo_digest "/mnt/c/run/portodb" demo_portodb_tree ∅
    = Ok ([("PortoDB/main.sqlite", "sha-of-1"); ("PortoDB/log.sqlite", "sha-of-0")],
          write_text_trace ∅ "/mnt/c/run/portodb/SHA256.txt"
            ("sha-of-1  PortoDB/main.sqlite" +:+ newline +:+
             "sha-of-0  PortoDB/log.sqlite" +:+ newline),
          ["[OK] SHA256.txt written with 2 entries at /mnt/c/run/portodb/SHA256.txt"]) /\
  String.prefix "/mnt/c/run/portodb" "/mnt/c/run/portodb/PortoDB/main.sqlite" = true.
Proof.
  assert (H : write_sha256_file demo_digest "/mnt/c/run/portodb" demo_portodb_tree ∅
    = Ok ([("PortoDB/main.sqlite", "sha-of-1"); ("PortoDB/log.sqlite", "sha-of-0")],
          write_text_trace ∅ "/mnt/c/run/portodb/SHA256.txt"
            ("sha-of-1  PortoDB/main.sqlite" +:+ newline +:+
             "sha-of-0  PortoDB/log.sqlite" +:+ newline),
          ["[OK] SHA256.txt written with 2 entries at /mnt/c/run/portodb/SHA256.txt"]))
    by (vm_compute; reflexivity).
  assert (Hw : Forall (fun rc : string * option (list Byte.byte) => starts_with_slash rc.1 = false)
                 (walk demo_portodb_tree)) by (repeat constructor).
  split; [exact H|].
  apply (unchanged_paths_under_root demo_digest _ _ _ _ _ _
           {[ "PortoDB/main.sqlite" := "sha-of-1" ]} H Hw).
  vm_compute. left. reflexivity.
Defined.

(** * Counterexamples *)

(** C4: with [a.db] unreadable, the run does not go on to [b.db]: the
    whole dedupe step ends in the [IOError] and produces no result. *)
Lemma unreadable_file_cex :
  ~ exists w' out,
      process_portodb_hashes_and_dedupe demo_digest demo_doc demo_dump demo_load demo_str
        true "/run/portodb" "/backup" "/home" "20260101_0000"
        cex_tree_unreadable demo_world = Ok (w', out).
Proof. intros (w' & out & H). vm_compute in H. discriminate. Qed.

